(** * Shallow embedding of the Playdate extension for Zed (src/src/lib.rs)

    The host editor (the [zed_extension_api] crate) is modelled by a record
    [Host] of the values and primitives the extension reads from it.  Calls
    that reach the network or spawn processes are recorded in a trace of
    [Event]s so that call counts can be stated.  The extension object
    [PlaydateExtension] with its two caches is threaded as explicit state. *)

From Stdlib Require Import String Ascii List Bool NArith ZArith Lia.
Import ListNotations.
Open Scope string_scope.
Set Warnings "-register-all".

(** ** Rust's [Result] *)

Inductive result (A E : Type) : Type :=
| Ok (a : A)
| Err (e : E).
Arguments Ok {A E} a.
Arguments Err {A E} e.

(** ** Strings: [&str] operations used by the source *)

(** [s.is_empty()] *)
Definition is_empty (s : string) : bool :=
  match s with EmptyString => true | _ => false end.

(** [starts_with]: is [p] a prefix of [s]? *)
Fixpoint starts_with (p s : string) : bool :=
  match p, s with
  | EmptyString, _ => true
  | String _ _, EmptyString => false
  | String a p', String b s' => Ascii.eqb a b && starts_with p' s'
  end.

(** Does [p] occur in [s] ([s.contains(p)]). *)
Fixpoint contains (p s : string) : bool :=
  starts_with p s ||
  match s with
  | EmptyString => false
  | String _ s' => contains p s'
  end.

(** Dropping the first [n] characters. *)
Fixpoint str_drop (n : nat) (s : string) : string :=
  match n, s with
  | O, _ => s
  | S _, EmptyString => EmptyString
  | S n', String _ s' => str_drop n' s'
  end.

(** [str::replace(from, to)] for a non-empty pattern [String pc pt]: scan
    left to right, replace each non-overlapping match and continue after it.
    The recursion is on a fuel bounded by the length of [s]; every step
    consumes at least one character. *)
Fixpoint replace_fuel (fuel : nat) (pc : ascii) (pt to s : string) : string :=
  match fuel with
  | O => s
  | S fuel' =>
      match s with
      | EmptyString => EmptyString
      | String c s' =>
          if starts_with (String pc pt) s
          then to ++ replace_fuel fuel' pc pt to (str_drop (String.length pt) s')
          else String c (replace_fuel fuel' pc pt to s')
      end
  end.

(** [s.replace(from, to)].  With an empty pattern Rust inserts [to] before
    every character and at the end. *)
Fixpoint replace_empty (to s : string) : string :=
  match s with
  | EmptyString => to
  | String c s' => to ++ String c (replace_empty to s')
  end.

Definition str_replace (s from to : string) : string :=
  match from with
  | EmptyString => replace_empty to s
  | String pc pt => replace_fuel (String.length s) pc pt to s
  end.

(** ** Platform ([zed::current_platform]) *)

Inductive Os := Mac | Linux | Windows.
Inductive Architecture := Aarch64 | X8664 | X86.

(** ** The host: what a [Worktree] and the extension API give back *)

Record GithubReleaseAsset := {
  asset_name : string;
  download_url : string
}.

Record GithubRelease := {
  version : string;
  assets : list GithubReleaseAsset
}.

Record GithubReleaseOptions := {
  require_assets : bool;
  pre_release : bool
}.

Inductive DownloadedFileType := GzipTar | Gzip | Zip | Uncompressed.

Inductive LanguageServerInstallationStatus :=
| CheckingForUpdate
| Downloading.

Record Host := {
  (** [worktree.shell_env()], in order *)
  shell_env : list (string * string);
  (** [worktree.root_path()] *)
  root_path : string;
  (** [worktree.which(name)] *)
  which : string -> option string;
  (** [zed::current_platform()] *)
  current_platform : Os * Architecture;
  (** [zed::latest_github_release(repo, options)] *)
  latest_github_release_of : string -> GithubReleaseOptions -> result GithubRelease string;
  (** [zed::download_file(url, dir, file_type)] *)
  download_file_of : string -> string -> DownloadedFileType -> result unit string;
  (** [zed::Command::new(cmd).args(args).output()]: standard output,
      already lossily decoded *)
  command_output_of : string -> list string -> result string string;
  (** [std::env::current_dir()] *)
  current_dir : result string string
}.

(** ** [detect_sdk_path] (lib.rs 46-70) *)

Definition is_home_key (k : string) : bool :=
  String.eqb k "HOME" || String.eqb k "USERPROFILE".

(** The loop of step 1: first [PLAYDATE_SDK_PATH] entry with a non-empty value. *)
Fixpoint find_sdk_env (env : list (string * string)) : option string :=
  match env with
  | [] => None
  | (key, value) :: rest =>
      if String.eqb key "PLAYDATE_SDK_PATH" && negb (is_empty value)
      then Some value
      else find_sdk_env rest
  end.

(** [env_vars.iter().find(|(k, _)| k == "HOME" || k == "USERPROFILE")
       .map(|(_, v)| v.as_str()).unwrap_or("")] *)
Definition home_of (env : list (string * string)) : string :=
  match find (fun kv => is_home_key (fst kv)) env with
  | Some (_, v) => v
  | None => ""
  end.

Definition detect_sdk_path (h : Host) : result string string :=
  let env_vars := shell_env h in
  match find_sdk_env env_vars with
  | Some value => Ok value
  | None =>
      let (os, _) := current_platform h in
      let home := home_of env_vars in
      match os with
      | Mac => Ok (home ++ "/Developer/PlaydateSDK")
      | Linux => Ok (home ++ "/.local/share/playdate-sdk")
      | Windows => Ok (home ++ "\Documents\PlaydateSDK")
      end
  end.

(** [get_simulator_path] (lib.rs 73-85) *)
Definition get_simulator_path (h : Host) : result string string :=
  match detect_sdk_path h with
  | Err e => Err e
  | Ok sdk_path =>
      let (os, _) := current_platform h in
      match os with
      | Mac => Ok (sdk_path ++ "/bin/Playdate Simulator.app/Contents/MacOS/Playdate Simulator")
      | Linux => Ok (sdk_path ++ "/bin/PlaydateSimulator")
      | Windows => Ok (sdk_path ++ "\bin\PlaydateSimulator.exe")
      end
  end.

(** ** The debug configuration (lib.rs 8-33) *)

Record PlaydateDebugConfig := {
  request : string;
  game_path : option string;
  source_path : option string;
  sdk_path : option string
}.

Definition default_game_path : option string :=
  Some "$ZED_WORKTREE_ROOT/builds/Game.pdx".

Definition default_source_path : option string :=
  Some "$ZED_WORKTREE_ROOT/source".

Inductive StartDebuggingRequestArgumentsRequest := Launch | Attach.

(** [get_request_type] (lib.rs 88-101) *)
Definition get_request_type (config : PlaydateDebugConfig)
  : result StartDebuggingRequestArgumentsRequest string :=
  if String.eqb (request config) "attach" then Ok Attach
  else if String.eqb (request config) "launch" then Ok Launch
  else Err ("Invalid request type '" ++ request config
            ++ "'. Expected 'launch' or 'attach'").

(** ** Results: [?], [map_err], [.ok()] *)

Definition rbind {A B E} (r : result A E) (k : A -> result B E) : result B E :=
  match r with Ok a => k a | Err e => Err e end.

Notation "'let?' x ':=' r 'in' k" := (rbind r (fun x => k))
  (at level 200, x name, r at level 100, k at level 200).

Definition map_err {A E F} (f : E -> F) (r : result A E) : result A F :=
  match r with Ok a => Ok a | Err e => Err (f e) end.

Definition ok {A E} (r : result A E) : option A :=
  match r with Ok a => Some a | Err _ => None end.

(** ** JSON values ([serde_json::Value]) *)

Inductive json :=
| JNull
| JBool (b : bool)
| JNum (n : N)
| JStr (s : string)
| JArr (l : list json)
| JObj (fields : list (string * json)).

(** Values of key [k] in an object, in order. *)
Definition field_values (k : string) (fields : list (string * json)) : list json :=
  map snd (filter (fun kv => String.eqb (fst kv) k) fields).

(** Member lookup [v[k]] (first occurrence). *)
Definition json_get (k : string) (v : json) : option json :=
  match v with
  | JObj fields =>
      match field_values k fields with [] => None | x :: _ => Some x end
  | _ => None
  end.

Fixpoint json_path (ks : list string) (v : json) : option json :=
  match ks with
  | [] => Some v
  | k :: ks' => match json_get k v with Some v' => json_path ks' v' | None => None end
  end.

(** ** [#[derive(Deserialize, Serialize)] PlaydateDebugConfig] (lib.rs 8-25)

    Deserialisation from a JSON object: [request] is a required string;
    each [Option<String>] field maps [null] to [None] and a string to
    [Some]; a missing field takes its [#[serde(default = ...)]] value;
    unknown keys are ignored and a repeated key is an error.  The wording
    of serde's error messages is abstracted. *)

Definition parse_opt_field (k : string) (dflt : option string)
  (fields : list (string * json)) : result (option string) string :=
  match field_values k fields with
  | [] => Ok dflt
  | [JNull] => Ok None
  | [JStr s] => Ok (Some s)
  | [_] => Err ("invalid type for field `" ++ k ++ "`")
  | _ => Err ("duplicate field `" ++ k ++ "`")
  end.

Definition parse_debug_config (v : json) : result PlaydateDebugConfig string :=
  match v with
  | JObj fields =>
      let? request :=
        match field_values "request" fields with
        | [] => Err "missing field `request`"
        | [JStr s] => Ok s
        | [_] => Err "invalid type for field `request`"
        | _ => Err "duplicate field `request`"
        end in
      let? game_path := parse_opt_field "gamePath" default_game_path fields in
      let? source_path := parse_opt_field "sourcePath" default_source_path fields in
      let? sdk_path := parse_opt_field "sdkPath" None fields in
      Ok {| request := request; game_path := game_path;
            source_path := source_path; sdk_path := sdk_path |}
  | _ => Err "invalid type: expected struct PlaydateDebugConfig"
  end.

(** Serialisation: fields in declaration order, [None] fields skipped
    ([skip_serializing_if = "Option::is_none"]). *)
Definition opt_field (k : string) (o : option string) : list (string * json) :=
  match o with Some s => [(k, JStr s)] | None => [] end.

Definition serialize_debug_config (cfg : PlaydateDebugConfig) : json :=
  JObj ([("request", JStr (request cfg))]
        ++ opt_field "gamePath" (game_path cfg)
        ++ opt_field "sourcePath" (source_path cfg)
        ++ opt_field "sdkPath" (sdk_path cfg))%list.

(** ** [get_dap_binary] (lib.rs 399-487) *)

Record TcpArgumentsTemplate := {
  template_host : option N;     (* u32 *)
  template_port : option N;     (* u16 *)
  template_timeout : option N   (* u64, milliseconds *)
}.

Record TcpArguments := {
  host : N;
  port : N;
  timeout : option N
}.

(** [zed::DebugTaskDefinition]; [config] is the JSON text, modelled by the
    value it denotes (syntax errors of the text are not modelled). *)
Record DebugTaskDefinition := {
  label : string;
  adapter : string;
  config : json;
  tcp_connection : option TcpArgumentsTemplate
}.

Record StartDebuggingRequestArguments := {
  configuration : json;
  request_kind : StartDebuggingRequestArgumentsRequest
}.

Record DebugAdapterBinary := {
  command : option string;
  arguments : list string;
  envs : list (string * string);
  cwd : option string;
  connection : option TcpArguments;
  request_args : StartDebuggingRequestArguments
}.

(** [config.config], named apart from the parameter [config] below. *)
Definition task_config (t : DebugTaskDefinition) : json := config t.

Definition ADAPTER_NAME : string := "Playdate".
Definition LSP_SERVER_ID : string := "playdate-lua-language-server".

(** The block of lib.rs 411-429 after parsing: fill [sdk_path] by
    detection, then substitute the worktree root in both paths. *)
Definition resolve_debug_config (h : Host) (cfg : PlaydateDebugConfig)
  : result PlaydateDebugConfig string :=
  let? sdk :=
    match sdk_path cfg with
    | None => let? p := detect_sdk_path h in Ok (Some p)
    | Some p => Ok (Some p)
    end in
  let root_path := root_path h in
  let source := option_map (fun s => str_replace s "$ZED_WORKTREE_ROOT" root_path)
                  (source_path cfg) in
  let game := option_map (fun g => str_replace g "$ZED_WORKTREE_ROOT" root_path)
                (game_path cfg) in
  Ok {| request := request cfg; game_path := game;
        source_path := source; sdk_path := sdk |}.

(** Connection parameters (lib.rs 435-443). *)
Definition connection_params (t : option TcpArgumentsTemplate) : N * N * N :=
  match t with
  | Some tcp_connection =>
      (match template_host tcp_connection with Some x => x | None => 2130706433 end,
       match template_port tcp_connection with Some x => x | None => 55934 end,
       match template_timeout tcp_connection with Some x => x | None => 5000 end)%N
  | None => (2130706433, 55934, 5000)%N
  end.

Definition get_dap_binary (h : Host) (adapter_name : string)
  (config : DebugTaskDefinition) : result DebugAdapterBinary string :=
  if negb (String.eqb adapter_name ADAPTER_NAME)
  then Err ("Unsupported adapter name: " ++ adapter_name)
  else
    let? cfg := map_err (fun e => "Failed to parse debug configuration: " ++ e)
                  (parse_debug_config (task_config config)) in
    let? debug_config := resolve_debug_config h cfg in
    let? request := get_request_type debug_config in
    let '(host, port, timeout) := connection_params (tcp_connection config) in
    let? launch :=
      match request with
      | Launch =>
          let? simulator_path := get_simulator_path h in
          let? game_path := match game_path debug_config with
                            | Some g => Ok g
                            | None => Err "No game_path specified in launch configuration"
                            end in
          let (os, _) := current_platform h in
          match os with
          | Mac => Ok (Some simulator_path, [game_path], @None string)
          | Linux => Ok (Some simulator_path, [game_path], None)
          | Windows => Ok (Some simulator_path, [game_path], None)
          end
      | Attach => Ok (None, [], None)
      end in
    let '(command, arguments, cwd) := launch in
    let final_config := serialize_debug_config debug_config in
    Ok {| command := command; arguments := arguments; envs := []; cwd := cwd;
          connection := Some {| host := host; port := port; timeout := Some timeout |};
          request_args := {| configuration := final_config; request_kind := request |} |}.

(** ** The extension object and its effects *)

Record PlaydateExtension := {
  cached_binary_path : option string;
  cached_luacats_path : option string
}.

(** [PlaydateExtension::default()] *)
Definition new_extension : PlaydateExtension :=
  {| cached_binary_path := None; cached_luacats_path := None |}.

(** Host calls that reach the editor, the network or a process. *)
Inductive Event :=
| EvSetInstallationStatus (language_server_id : string)
    (status : LanguageServerInstallationStatus)
| EvLatestGithubRelease (repo : string) (options : GithubReleaseOptions)
| EvDownloadFile (url dir : string) (file_type : DownloadedFileType)
| EvRunCommand (cmd : string) (args : list string).

(** A state and error monad over the extension object, logging events. *)
Definition ExtM (A : Type) : Type :=
  PlaydateExtension -> list Event -> result A string * PlaydateExtension * list Event.

Definition ret {A} (a : A) : ExtM A := fun s tr => (Ok a, s, tr).

Definition bind {A B} (m : ExtM A) (k : A -> ExtM B) : ExtM B :=
  fun s tr =>
    match m s tr with
    | (Ok a, s', tr') => k a s' tr'
    | (Err e, s', tr') => (Err e, s', tr')
    end.

Notation "x <- m ;; k" := (bind m (fun x => k))
  (at level 61, m at next level, right associativity).
Notation "m ;; k" := (bind m (fun _ => k))
  (at level 61, right associativity).

(** [r?] on a plain [Result]. *)
Definition lift {A} (r : result A string) : ExtM A := fun s tr => (r, s, tr).

Definition get_ext : ExtM PlaydateExtension := fun s tr => (Ok s, s, tr).
Definition put_ext (s' : PlaydateExtension) : ExtM unit := fun _ tr => (Ok tt, s', tr).

Definition emit (ev : Event) : ExtM unit := fun s tr => (Ok tt, s, (tr ++ [ev])%list).

Definition map_err_m {A} (f : string -> string) (m : ExtM A) : ExtM A :=
  fun s tr => match m s tr with (r, s', tr') => (map_err f r, s', tr') end.

Definition set_language_server_installation_status (id : string)
  (status : LanguageServerInstallationStatus) : ExtM unit :=
  emit (EvSetInstallationStatus id status).

Definition latest_github_release (h : Host) (repo : string)
  (options : GithubReleaseOptions) : ExtM GithubRelease :=
  emit (EvLatestGithubRelease repo options) ;;
  lift (latest_github_release_of h repo options).

Definition download_file (h : Host) (url dir : string)
  (file_type : DownloadedFileType) : ExtM unit :=
  emit (EvDownloadFile url dir file_type) ;;
  lift (download_file_of h url dir file_type).

Definition command_output (h : Host) (cmd : string) (args : list string) : ExtM string :=
  emit (EvRunCommand cmd args) ;;
  lift (command_output_of h cmd args).

(** [format!("{:?}", s)] for a string: quoted, with quotes and
    backslashes escaped. *)
Definition dquote : ascii := "034".
Definition backslash : ascii := "092".

Fixpoint debug_escape (s : string) : string :=
  match s with
  | EmptyString => EmptyString
  | String c s' =>
      if Ascii.eqb c dquote || Ascii.eqb c backslash
      then String backslash (String c (debug_escape s'))
      else String c (debug_escape s')
  end.

Definition debug_str (s : string) : string :=
  String dquote (debug_escape s ++ String dquote EmptyString).

(** ** [language_server_binary_path] (lib.rs 161-238) *)

(** The arguments of the [format!] of lib.rs 187-204; the [X86] arm is the
    early [return Err(...)]. *)
Definition lua_asset_name (version : string) (platform : Os) (arch : Architecture)
  : result string string :=
  let os := match platform with
            | Mac => "darwin" | Linux => "linux" | Windows => "win32"
            end in
  let? arch := match arch with
               | Aarch64 => Ok "arm64"
               | X8664 => Ok "x64"
               | X86 => Err "unsupported platform x86"
               end in
  let extension := match platform with
                   | Mac | Linux => "tar.gz"
                   | Windows => "zip"
                   end in
  Ok ("lua-language-server-" ++ version ++ "-" ++ os ++ "-" ++ arch ++ "." ++ extension).

Definition language_server_binary_path (h : Host) (language_server_id : string)
  : ExtM string :=
  match which h "lua-language-server" with
  | Some path => ret path
  | None =>
      self <- get_ext ;;
      match cached_binary_path self with
      | Some path => ret path
      | None =>
          set_language_server_installation_status language_server_id CheckingForUpdate ;;
          release <- latest_github_release h "LuaLS/lua-language-server"
                       {| require_assets := true; pre_release := false |} ;;
          let (platform, arch) := current_platform h in
          name <- lift (lua_asset_name (version release) platform arch) ;;
          asset <- lift (match find (fun a => String.eqb (asset_name a) name)
                                    (assets release) with
                         | Some a => Ok a
                         | None => Err ("no asset found matching " ++ debug_str name)
                         end) ;;
          let version_dir := "lua-language-server-" ++ version release in
          let binary_path := version_dir ++ "/bin/lua-language-server"
                             ++ match platform with
                                | Mac | Linux => ""
                                | Windows => ".exe"
                                end in
          set_language_server_installation_status language_server_id Downloading ;;
          map_err_m (fun e => "failed to download file: " ++ e)
            (download_file h (download_url asset) version_dir
               match platform with
               | Mac | Linux => GzipTar
               | Windows => Zip
               end) ;;
          self' <- get_ext ;;
          put_ext {| cached_binary_path := Some binary_path;
                     cached_luacats_path := cached_luacats_path self' |} ;;
          ret binary_path
      end
  end.

(** ** [playdate_luacats_path] (lib.rs 103-159) *)

(** [str::trim] on the ASCII white-space characters. *)
Definition is_whitespace (c : ascii) : bool :=
  match nat_of_ascii c with
  | 9 | 10 | 11 | 12 | 13 | 32 => true
  | _ => false
  end.

Fixpoint trim_start (s : string) : string :=
  match s with
  | String c s' => if is_whitespace c then trim_start s' else s
  | EmptyString => EmptyString
  end.

Fixpoint str_rev (s : string) : string :=
  match s with
  | EmptyString => EmptyString
  | String c s' => str_rev s' ++ String c EmptyString
  end.

Definition trim (s : string) : string := str_rev (trim_start (str_rev (trim_start s))).

(** [Path::join] with the '/' separator: an absolute component replaces the
    path, otherwise a separator is added unless one is already there. *)
Definition ends_with_slash (p : string) : bool :=
  match str_rev p with String "/" _ => true | _ => false end.

Definition path_join (p c : string) : string :=
  if starts_with "/" c then c
  else if is_empty p || ends_with_slash p then p ++ c
  else p ++ "/" ++ c.

Definition playdate_luacats_path (h : Host) : ExtM string :=
  self <- get_ext ;;
  match cached_luacats_path self with
  | Some path => ret path
  | None =>
      pdc_path <- lift (match which h "pdc" with
                        | Some p => Ok p
                        | None => Err "pdc command not found in PATH"
                        end) ;;
      output <- map_err_m (fun e => "failed to run pdc --version: " ++ e)
                  (command_output h pdc_path ["--version"]) ;;
      let sdk_version := trim output in
      let luacats_tag := "v" ++ sdk_version ++ "-luacats1" in
      let version_dir := "playdate-luacats-" ++ sdk_version ++ "-luacats1" in
      let tarball_url := "https://github.com/notpeter/playdate-luacats/archive/refs/tags/"
                         ++ luacats_tag ++ ".tar.gz" in
      map_err_m (fun e => "failed to download playdate-luacats tag " ++ luacats_tag
                          ++ ": " ++ e)
        (download_file h tarball_url "." GzipTar) ;;
      extension_dir <- lift (map_err (fun e => "Failed to get extension directory: " ++ e)
                               (current_dir h)) ;;
      let library_path := path_join (path_join extension_dir version_dir) "library" in
      self' <- get_ext ;;
      put_ext {| cached_binary_path := cached_binary_path self';
                 cached_luacats_path := Some library_path |} ;;
      ret library_path
  end.

(** ** [language_server_workspace_configuration] (lib.rs 348-397) *)

Definition runtime_settings : json :=
  JObj [("version", JStr "Lua 5.4");
        ("special", JObj [("import", JStr "require")]);
        ("builtin", JObj [("io", JStr "disable"); ("os", JStr "disable");
                          ("package", JStr "disable")]);
        ("nonstandardSymbol",
          JArr (map JStr ["+="; "-="; "*="; "/="; "//="; "%="; "<<="; ">>=";
                          "&="; "|="; "^="]))].

(** The [json!] payload of lib.rs 373-396 for a given library list. *)
Definition workspace_settings (library_paths : list string) : json :=
  JObj [("Lua", JObj
    [("runtime", runtime_settings);
     ("diagnostics", JObj [("globals", JArr [JStr "playdate"; JStr "import"]);
                           ("disable", JArr [JStr "duplicate-set-field"]);
                           ("severity", JObj [("unknown-symbol", JStr "Hint")])]);
     ("workspace", JObj [("library", JArr (map JStr library_paths));
                         ("checkThirdParty", JBool false)]);
     ("completion", JObj [("callSnippet", JStr "Replace")])])].

(** lib.rs 360-396, after [let sdk_path = self.detect_sdk_path(worktree).ok()]. *)
Definition workspace_configuration_with (h : Host) (sdk_path : option string)
  : ExtM (option json) :=
  let library_paths := match sdk_path with
                       | Some path => [path ++ "/CoreLibs"]
                       | None => []
                       end in
  luacats_path <- playdate_luacats_path h ;;
  ret (Some (workspace_settings (library_paths ++ [luacats_path])%list)).

Definition language_server_workspace_configuration (h : Host)
  (language_server_id : string) : ExtM (option json) :=
  if negb (String.eqb language_server_id LSP_SERVER_ID) then ret None
  else workspace_configuration_with h (ok (detect_sdk_path h)).

(** A sequence of [language_server_binary_path] calls on one extension
    object; the host may differ from call to call. *)
Fixpoint run_binary_path_calls (hs : list Host) (language_server_id : string)
  (s : PlaydateExtension) (tr : list Event)
  : list (result string string) * PlaydateExtension * list Event :=
  match hs with
  | [] => ([], s, tr)
  | h :: hs' =>
      match language_server_binary_path h language_server_id s tr with
      | (r, s', tr') =>
          match run_binary_path_calls hs' language_server_id s' tr' with
          | (rs, s'', tr'') => (r :: rs, s'', tr'')
          end
      end
  end.

(** Events that reach the network. *)
Definition is_network_event (ev : Event) : bool :=
  match ev with
  | EvLatestGithubRelease _ _ | EvDownloadFile _ _ _ => true
  | _ => false
  end.

(** ** [language_server_command] (lib.rs 246-263) *)

Module ZedCommand.
(** [zed::Command] *)
Record Command := {
  command : string;
  args : list string;
  env : list (string * string)
}.
End ZedCommand.

Definition language_server_command (h : Host) (language_server_id : string)
  : ExtM ZedCommand.Command :=
  if negb (String.eqb language_server_id LSP_SERVER_ID)
  then lift (Err ("Unsupported language server ID: " ++ language_server_id))
  else
    path <- language_server_binary_path h language_server_id ;;
    ret {| ZedCommand.command := path; ZedCommand.args := [];
           ZedCommand.env := [] |}.

(** ** [language_server_initialization_options] (lib.rs 311-346) *)

(** The [json!] payload of lib.rs 321-345. *)
Definition initialization_settings : json :=
  JObj [("Lua", JObj
    [("runtime", runtime_settings);
     ("diagnostics", JObj [("globals", JArr [JStr "playdate"; JStr "import"]);
                           ("severity", JObj [("duplicate-set-field", JStr "Hint");
                                              ("unknown-symbol", JStr "Warning")])]);
     ("workspace", JObj [("library", JArr []);
                         ("checkThirdParty", JBool false)]);
     ("completion", JObj [("callSnippet", JStr "Replace")])])].

Definition language_server_initialization_options (language_server_id : string)
  : result (option json) string :=
  if negb (String.eqb language_server_id LSP_SERVER_ID) then Ok None
  else Ok (Some initialization_settings).

(** ** [dap_request_kind] (lib.rs 489-503) *)

Definition dap_request_kind (adapter_name : string) (config : json)
  : result StartDebuggingRequestArgumentsRequest string :=
  if negb (String.eqb adapter_name ADAPTER_NAME)
  then Err ("Unsupported adapter name: " ++ adapter_name)
  else
    let? debug_config := map_err (fun e => "Failed to parse debug configuration: " ++ e)
                           (parse_debug_config config) in
    get_request_type debug_config.

(** ** Completion and symbol labels (lib.rs 265-309) *)

(** [zed::lsp::CompletionKind]; [Module] and [Variable] are Rocq keywords,
    so those two variants carry a trailing underscore. *)
Module CompletionKind.
Inductive t :=
| Text | Method | Function | Constructor | Field | Variable_ | Class
| Interface | Module_ | Property | Unit | Value | Enum | Keyword | Snippet
| Color | File | Reference | Folder | EnumMember | Constant | Struct | Event
| Operator | TypeParameter | Other (n : Z).
End CompletionKind.

(** [zed::lsp::SymbolKind] *)
Module SymbolKind.
Inductive t :=
| File | Module_ | Namespace | Package | Class | Method | Property | Field
| Constructor | Enum | Interface | Function | Variable_ | Constant | String
| Number | Boolean | Array | Object | Key | Null | EnumMember | Struct
| Event | Operator | TypeParameter | Other (n : Z).
End SymbolKind.

(** The fields of [zed::lsp::Completion] and [zed::lsp::Symbol] the
    extension reads. *)
Record Completion := {
  completion_label : string;
  completion_kind : option CompletionKind.t
}.

Record Symbol := {
  symbol_kind : SymbolKind.t;
  symbol_name : string
}.

(** [zed::Range] (half-open, byte offsets) *)
Record Range := {
  range_start : nat;
  range_end : nat
}.

Inductive CodeLabelSpan :=
| CodeRange (r : Range)                                 (* [CodeLabelSpan::code_range] *)
| Literal (text : string) (highlight_name : option string). (* [CodeLabelSpan::literal] *)

Record CodeLabel := {
  code : string;
  spans : list CodeLabelSpan;
  filter_range : Range
}.

(** [s.find(c)] for a one-byte character: byte index of its first occurrence. *)
Fixpoint str_find_char (c : ascii) (s : string) : option nat :=
  match s with
  | EmptyString => None
  | String d s' => if Ascii.eqb c d then Some 0 else option_map S (str_find_char c s')
  end.

Fixpoint str_take (n : nat) (s : string) : string :=
  match n, s with
  | O, _ => EmptyString
  | S _, EmptyString => EmptyString
  | S n', String c s' => String c (str_take n' s')
  end.

(** [&s[r.start..r.end]] *)
Definition str_slice (r : Range) (s : string) : string :=
  str_take (range_end r - range_start r) (str_drop (range_start r) s).

Definition label_for_completion (completion : Completion) : option CodeLabel :=
  match completion_kind completion with
  | None => None
  | Some kind =>
      match kind with
      | CompletionKind.Method | CompletionKind.Function =>
          let name_len := match str_find_char "(" (completion_label completion) with
                          | Some n => n
                          | None => String.length (completion_label completion)
                          end in
          Some {| spans := [CodeRange {| range_start := 0;
                                         range_end := String.length (completion_label completion) |}];
                  filter_range := {| range_start := 0; range_end := name_len |};
                  code := completion_label completion |}
      | CompletionKind.Field =>
          Some {| spans := [Literal (completion_label completion) (Some "property")];
                  filter_range := {| range_start := 0;
                                     range_end := String.length (completion_label completion) |};
                  code := EmptyString |}
      | _ => None
      end
  end.

Definition label_for_symbol (symbol : Symbol) : option CodeLabel :=
  let prefix := "let a = " in
  let suffix := match symbol_kind symbol with
                | SymbolKind.Method => "()"
                | _ => ""
                end in
  let code := prefix ++ symbol_name symbol ++ suffix in
  Some {| spans := [CodeRange {| range_start := String.length prefix;
                                 range_end := String.length code - String.length suffix |}];
          filter_range := {| range_start := 0; range_end := String.length (symbol_name symbol) |};
          code := code |}.

(** ** Statement vocabulary *)

(** The placeholder token substituted in [gamePath] and [sourcePath]. *)
Definition worktree_token : string := "$ZED_WORKTREE_ROOT".

(** [pieces] joined with [sep] between consecutive pieces. *)
Fixpoint join_with (sep : string) (pieces : list string) : string :=
  match pieces with
  | [] => EmptyString
  | [p] => p
  | p :: ps => p ++ sep ++ join_with sep ps
  end.

(** The fixed per-OS suffix appended to the home directory, as the spec
    lists it (with the separator the format strings put in front). *)
Definition conventional_suffix (os : Os) : string :=
  match os with
  | Mac => "/Developer/PlaydateSDK"
  | Linux => "/.local/share/playdate-sdk"
  | Windows => "\Documents\PlaydateSDK"
  end.

(** ** Concrete hosts *)

Definition mk_host (env : list (string * string)) (root : string)
  (platform : Os * Architecture) (on_path : list (string * string))
  (release : result GithubRelease string) : Host :=
  {| shell_env := env;
     root_path := root;
     which := fun name =>
       match find (fun kv => String.eqb (fst kv) name) on_path with
       | Some (_, p) => Some p
       | None => None
       end;
     current_platform := platform;
     latest_github_release_of := fun _ _ => release;
     download_file_of := fun _ _ _ => Ok tt;
     command_output_of := fun _ _ => Ok ("2.6.2" ++ String "010" EmptyString);
     current_dir := Ok "/work" |}.

Definition sample_release : GithubRelease :=
  {| version := "3.13.5";
     assets := [ {| asset_name := "lua-language-server-3.13.5-linux-x64.tar.gz";
                    download_url := "https://example.org/linux-x64.tar.gz" |};
                 {| asset_name := "lua-language-server-3.13.5-darwin-arm64.tar.gz";
                    download_url := "https://example.org/darwin-arm64.tar.gz" |} ] |}.

Definition launch_task : DebugTaskDefinition :=
  {| label := "run"; adapter := "Playdate";
     config := JObj [("request", JStr "launch")];
     tcp_connection := None |}.

Example ex_replace :
  str_replace "$ZED_WORKTREE_ROOT/a/$ZED_WORKTREE_ROOT" "$ZED_WORKTREE_ROOT" "/p"
  = "/p/a//p".
Proof. reflexivity. Qed.

Example ex_dap :
  match get_dap_binary (mk_host [("HOME", "/home/u")] "/proj" (Linux, X8664) [] (Err "x"))
          "Playdate" launch_task with
  | Ok b => Some (configuration (request_args b), command b, arguments b)
  | Err _ => None
  end
  = Some (JObj [("request", JStr "launch"); ("gamePath", JStr "/proj/builds/Game.pdx");
                ("sourcePath", JStr "/proj/source");
                ("sdkPath", JStr "/home/u/.local/share/playdate-sdk")],
          Some "/home/u/.local/share/playdate-sdk/bin/PlaydateSimulator",
          ["/proj/builds/Game.pdx"]).
Proof. reflexivity. Qed.

Example ex_lsp_download :
  language_server_binary_path (mk_host [] "/proj" (Linux, X8664) [] (Ok sample_release))
    "id" new_extension []
  = (Ok "lua-language-server-3.13.5/bin/lua-language-server",
     {| cached_binary_path := Some "lua-language-server-3.13.5/bin/lua-language-server";
        cached_luacats_path := None |},
     [EvSetInstallationStatus "id" CheckingForUpdate;
      EvLatestGithubRelease "LuaLS/lua-language-server"
        {| require_assets := true; pre_release := false |};
      EvSetInstallationStatus "id" Downloading;
      EvDownloadFile "https://example.org/linux-x64.tar.gz" "lua-language-server-3.13.5" GzipTar]).
Proof. reflexivity. Qed.

Example ex_luacats :
  fst (fst (playdate_luacats_path
              (mk_host [] "/proj" (Linux, X8664) [("pdc", "/sdk/bin/pdc")] (Err "x"))
              new_extension []))
  = Ok "/work/playdate-luacats-2.6.2-luacats1/library".
Proof. reflexivity. Qed.

(** * Properties *)

(** ** Strings *)

Lemma starts_with_self_app (p b : string) : starts_with p (p ++ b) = true.
Proof.
  induction p as [|c p IH]; simpl; [reflexivity|].
  rewrite Ascii.eqb_refl, IH; reflexivity.
Qed.

Lemma contains_app_mid (a p b : string) : contains p (a ++ p ++ b) = true.
Proof.
  induction a as [|c a IH]; simpl.
  - destruct p; [destruct b; reflexivity|simpl].
    rewrite Ascii.eqb_refl, starts_with_self_app; reflexivity.
  - rewrite IH, orb_true_r; reflexivity.
Qed.

Lemma append_empty_r (s : string) : s ++ EmptyString = s.
Proof. induction s as [|c s IH]; simpl; [reflexivity|rewrite IH; reflexivity]. Qed.

Lemma starts_with_refl (s : string) : starts_with s s = true.
Proof. rewrite <- (append_empty_r s) at 2; apply starts_with_self_app. Qed.

Lemma contains_false_cons (p : string) (c : ascii) (s : string) :
  contains p (String c s) = false ->
  starts_with p (String c s) = false /\ contains p s = false.
Proof. simpl; intro H; apply orb_false_iff in H; exact H. Qed.

(** A prefix of [x ++ y] is a prefix of [x] or runs past [x]. *)
Lemma starts_with_app_inv (x p y : string) :
  starts_with p (x ++ y) = true ->
  starts_with p x = true \/ exists z, p = x ++ z /\ starts_with z y = true.
Proof.
  revert p; induction x as [|c x IH]; intros p H.
  - right; exists p; split; [reflexivity|exact H].
  - destruct p as [|a p]; [left; reflexivity|].
    simpl in H; apply andb_true_iff in H as [Ha Hp].
    apply Ascii.eqb_eq in Ha; subst a.
    destruct (IH p Hp) as [Hx|[z [-> Hz]]].
    + left; simpl; rewrite Ascii.eqb_refl, Hx; reflexivity.
    + right; exists z; split; [reflexivity|exact Hz].
Qed.

Lemma length_str_drop (n : nat) (s : string) :
  String.length (str_drop n s) <= String.length s.
Proof.
  revert s; induction n as [|n IH]; intros [|c s]; simpl; try lia.
  specialize (IH s); lia.
Qed.

Lemma str_drop_app (a b : string) : str_drop (String.length a) (a ++ b) = b.
Proof. induction a; simpl; auto. Qed.

Section Replace.
Variables (pc : ascii) (pt to : string).

Let rep (s : string) : string := replace_fuel (String.length s) pc pt to s.

Lemma replace_fuel_irrel (n m : nat) (s : string) :
  String.length s <= n -> String.length s <= m ->
  replace_fuel n pc pt to s = replace_fuel m pc pt to s.
Proof.
  revert m s; induction n as [|n IH]; intros m s Hn Hm.
  - destruct s; simpl in Hn; [|lia]. destruct m; reflexivity.
  - destruct m as [|m]; destruct s as [|c s]; simpl in *; try lia; try reflexivity.
    destruct ((pc =? c)%char && starts_with pt s).
    + f_equal; apply IH; pose proof (length_str_drop (String.length pt) s); lia.
    + f_equal; apply IH; lia.
Qed.

Lemma rep_match (c : ascii) (s : string) :
  starts_with (String pc pt) (String c s) = true ->
  rep (String c s) = to ++ rep (str_drop (String.length pt) s).
Proof.
  intro H; unfold rep; simpl in H |- *; rewrite H; f_equal.
  apply replace_fuel_irrel; [apply length_str_drop|lia].
Qed.

Lemma rep_skip (c : ascii) (s : string) :
  starts_with (String pc pt) (String c s) = false ->
  rep (String c s) = String c (rep s).
Proof. intro H; unfold rep; simpl in H |- *; rewrite H; reflexivity. Qed.

Lemma rep_absent (s : string) :
  contains (String pc pt) s = false -> rep s = s.
Proof.
  induction s as [|c s IH]; intro H; [reflexivity|].
  apply contains_false_cons in H as [H1 H2].
  rewrite rep_skip by exact H1; rewrite IH by exact H2; reflexivity.
Qed.

(** When the head of the pattern does not reappear in it, the first match
    in [a ++ pattern ++ b] with [a] free of the pattern is the one after [a]. *)
Lemma rep_first (a b : string) :
  contains (String pc EmptyString) pt = false ->
  contains (String pc pt) a = false ->
  rep (a ++ String pc pt ++ b) = a ++ to ++ rep b.
Proof.
  intro Hhead; induction a as [|c a IH]; intro Ha.
  - simpl. rewrite rep_match.
    + rewrite str_drop_app; reflexivity.
    + exact (starts_with_self_app (String pc pt) b).
  - apply contains_false_cons in Ha as [Ha1 Ha2].
    change (String c a ++ String pc pt ++ b)
      with (String c (a ++ String pc pt ++ b)).
    rewrite rep_skip; [rewrite IH by exact Ha2; reflexivity|].
    destruct (starts_with (String pc pt) (String c (a ++ String pc pt ++ b)))
      eqn:E; [exfalso|reflexivity].
    change (String c (a ++ String pc pt ++ b))
      with (String c a ++ (String pc pt ++ b)) in E.
    destruct (starts_with_app_inv _ _ _ E) as [E1|[z [Ez Hz]]];
      [congruence|].
    destruct z as [|d z].
    + rewrite append_empty_r in Ez.
      rewrite Ez, starts_with_refl in Ha1; discriminate.
    + simpl in Hz; apply andb_true_iff in Hz as [Hd _].
      apply Ascii.eqb_eq in Hd; subst d.
      simpl in Ez; injection Ez as _ Ept.
      rewrite Ept in Hhead.
      pose proof (contains_app_mid a (String pc EmptyString) z) as Hc.
      change (String pc EmptyString ++ z) with (String pc z) in Hc.
      congruence.
Qed.
End Replace.

Lemma str_replace_token (s r : string) :
  str_replace s worktree_token r
  = replace_fuel (String.length s) "$" "ZED_WORKTREE_ROOT" r s.
Proof. reflexivity. Qed.

Lemma token_head_unique : contains "$" "ZED_WORKTREE_ROOT" = false.
Proof. reflexivity. Qed.

(** ** Environment probing *)

Lemma find_sdk_env_first (pre post : list (string * string)) (v : string) :
  Forall (fun kv => fst kv = "PLAYDATE_SDK_PATH" -> snd kv = "") pre ->
  v <> "" ->
  find_sdk_env (pre ++ ("PLAYDATE_SDK_PATH", v) :: post) = Some v.
Proof.
  intros Hpre Hv; induction Hpre as [|[k w] pre Hkw _ IH]; simpl.
  - destruct v; [congruence|reflexivity].
  - simpl in Hkw; destruct (String.eqb_spec k "PLAYDATE_SDK_PATH") as [->|Hk]; simpl.
    + rewrite (Hkw eq_refl); exact IH.
    + exact IH.
Qed.

Lemma find_sdk_env_none (env : list (string * string)) :
  Forall (fun kv => fst kv = "PLAYDATE_SDK_PATH" -> snd kv = "") env ->
  find_sdk_env env = None.
Proof.
  intro Henv; induction Henv as [|[k w] env Hkw _ IH]; simpl; [reflexivity|].
  simpl in Hkw; destruct (String.eqb_spec k "PLAYDATE_SDK_PATH") as [->|Hk]; simpl.
  - rewrite (Hkw eq_refl); exact IH.
  - exact IH.
Qed.

Lemma is_home_key_false (k : string) :
  k <> "HOME" /\ k <> "USERPROFILE" -> is_home_key k = false.
Proof.
  intros [H1 H2]; unfold is_home_key.
  apply String.eqb_neq in H1, H2; rewrite H1, H2; reflexivity.
Qed.

Lemma home_of_first (pre post : list (string * string)) (k v : string) :
  Forall (fun kv => fst kv <> "HOME" /\ fst kv <> "USERPROFILE") pre ->
  k = "HOME" \/ k = "USERPROFILE" ->
  home_of (pre ++ (k, v) :: post) = v.
Proof.
  intros Hpre Hk; unfold home_of.
  induction Hpre as [|[k' w] pre Hkw _ IH]; simpl.
  - destruct Hk as [->| ->]; reflexivity.
  - simpl in Hkw; rewrite (is_home_key_false _ Hkw); exact IH.
Qed.

Lemma home_of_none (env : list (string * string)) :
  Forall (fun kv => fst kv <> "HOME" /\ fst kv <> "USERPROFILE") env ->
  home_of env = "".
Proof.
  intro Henv; unfold home_of.
  induction Henv as [|[k w] env Hkw _ IH]; simpl; [reflexivity|].
  simpl in Hkw; rewrite (is_home_key_false _ Hkw); exact IH.
Qed.

(** Without an override the result is the home value followed by the
    per-OS suffix. *)
Lemma detect_sdk_path_fallback (h : Host) :
  find_sdk_env (shell_env h) = None ->
  detect_sdk_path h = Ok (home_of (shell_env h) ++ conventional_suffix (fst (current_platform h))).
Proof.
  intro H; unfold detect_sdk_path; rewrite H.
  destruct (current_platform h) as [[] arch]; reflexivity.
Qed.

Lemma detect_sdk_path_ok_nonempty (h : Host) :
  exists p, detect_sdk_path h = Ok p /\ p <> "".
Proof.
  unfold detect_sdk_path.
  destruct (find_sdk_env (shell_env h)) as [v|] eqn:E.
  - exists v; split; [reflexivity|].
    induction (shell_env h) as [|[k w] env IH]; simpl in E; [discriminate|].
    destruct (String.eqb k "PLAYDATE_SDK_PATH" && negb (is_empty w)) eqn:Ew.
    + injection E as <-; apply andb_true_iff in Ew as [_ Ew].
      destruct w; simpl in Ew; discriminate.
    + exact (IH E).
  - destruct (current_platform h) as [[] arch];
      eexists; (split; [reflexivity|]); destruct (home_of (shell_env h)); discriminate.
Qed.

(** A [result] equation [Ok b = ...] is taken apart by cases on every
    [match] it depends on. *)
Ltac split_results H :=
  repeat match type of H with
         | context[match ?x with _ => _ end] => destruct x eqn:?
         end;
  try discriminate H.

Lemma get_dap_binary_connection (h : Host) (name : string)
  (task : DebugTaskDefinition) (b : DebugAdapterBinary) :
  get_dap_binary h name task = Ok b ->
  connection b = Some (let '(x, y, z) := connection_params (tcp_connection task) in
                       {| host := x; port := y; timeout := Some z |}).
Proof.
  intro H; unfold get_dap_binary, rbind in H.
  destruct (connection_params (tcp_connection task)) as [[x y] z] eqn:E.
  split_results H; injection H as <-; reflexivity.
Qed.

(** ** The binary resolver and the type-definition resolver *)

Ltac unfold_ext :=
  unfold bind, ret, get_ext, put_ext, lift, emit, map_err_m,
    set_language_server_installation_status, latest_github_release,
    download_file, command_output.

Ltac unfold_ext_in H :=
  unfold bind, ret, get_ext, put_ext, lift, emit, map_err_m,
    set_language_server_installation_status, latest_github_release,
    download_file, command_output in H.

Lemma binary_path_on_path (h : Host) (lsid : string) st tr p :
  which h "lua-language-server" = Some p ->
  language_server_binary_path h lsid st tr = (Ok p, st, tr).
Proof. intro Hw; unfold language_server_binary_path; rewrite Hw; reflexivity. Qed.

Lemma binary_path_cached (h : Host) (lsid : string) st tr p :
  which h "lua-language-server" = None ->
  cached_binary_path st = Some p ->
  language_server_binary_path h lsid st tr = (Ok p, st, tr).
Proof.
  intros Hw Hc; unfold language_server_binary_path; rewrite Hw.
  unfold_ext; rewrite Hc; reflexivity.
Qed.

Lemma binary_path_writes_cache (h : Host) (lsid : string) st tr p st' tr' :
  which h "lua-language-server" = None ->
  language_server_binary_path h lsid st tr = (Ok p, st', tr') ->
  cached_binary_path st' = Some p.
Proof.
  intros Hw H; unfold language_server_binary_path in H; rewrite Hw in H.
  unfold_ext_in H; cbn in H.
  destruct (cached_binary_path st) as [q|] eqn:Hc; cbn in H.
  - injection H as -> -> _; exact Hc.
  - split_results H; injection H as <- <- _; reflexivity.
Qed.

Lemma workspace_configuration_with_eq (h : Host) sdk st tr :
  workspace_configuration_with h sdk st tr
  = match playdate_luacats_path h st tr with
    | (Ok p, st', tr') =>
        (Ok (Some (workspace_settings
                     (app (match sdk with
                           | Some path => [String.append path "/CoreLibs"]
                           | None => []
                           end) [p]))), st', tr')
    | (Err e, st', tr') => (Err e, st', tr')
    end.
Proof.
  unfold workspace_configuration_with, bind, ret.
  destruct (playdate_luacats_path h st tr) as [[[p|e] st'] tr']; reflexivity.
Qed.

Lemma workspace_settings_library (l : list string) :
  json_path ["Lua"; "workspace"; "library"] (workspace_settings l) = Some (JArr (map JStr l)).
Proof. reflexivity. Qed.

(** ** Claims *)

(** C3: [get_request_type] returns [Launch] exactly for "launch", [Attach]
    exactly for "attach", and for every other request string (the empty
    string, "Launch", ...) an error whose message contains that string; the
    comparison is exact, without trimming or case folding. *)
Theorem get_request_type_exact (cfg : PlaydateDebugConfig) :
  (request cfg = "launch" -> get_request_type cfg = Ok Launch) /\
  (request cfg = "attach" -> get_request_type cfg = Ok Attach) /\
  (request cfg <> "launch" -> request cfg <> "attach" ->
     exists msg, get_request_type cfg = Err msg /\ contains (request cfg) msg = true).
Proof.
  unfold get_request_type; split; [|split].
  - intros ->; reflexivity.
  - intros ->; reflexivity.
  - intros Hl Ha.
    apply String.eqb_neq in Hl, Ha; rewrite Hl, Ha.
    eexists; split; [reflexivity|].
    apply contains_app_mid.
Qed.

Lemma get_request_type_exact_witness :
  (exists msg, get_request_type {| request := "Launch"; game_path := None;
                                   source_path := None; sdk_path := None |} = Err msg
               /\ contains "Launch" msg = true) /\
  (exists msg, get_request_type {| request := ""; game_path := None;
                                   source_path := None; sdk_path := None |} = Err msg
               /\ contains "" msg = true).
Proof.
  split.
  - apply (get_request_type_exact {| request := "Launch"; game_path := None;
                                     source_path := None; sdk_path := None |});
      discriminate.
  - apply (get_request_type_exact {| request := ""; game_path := None;
                                     source_path := None; sdk_path := None |});
      discriminate.
Defined.

(** C7: substitution of [$ZED_WORKTREE_ROOT] is literal replacement: a path
    without the token is unchanged, and a path made of token-free pieces
    separated by the token becomes those pieces separated by the root path,
    i.e. every occurrence is replaced.  [get_dap_binary] applies it to
    [sourcePath] and [gamePath] with the worktree's root path. *)
Theorem worktree_root_substitution :
  (forall root s, contains worktree_token s = false ->
     str_replace s worktree_token root = s) /\
  (forall root pieces, pieces <> [] ->
     Forall (fun p => contains worktree_token p = false) pieces ->
     str_replace (join_with worktree_token pieces) worktree_token root
     = join_with root pieces) /\
  (forall h cfg cfg', resolve_debug_config h cfg = Ok cfg' ->
     source_path cfg' = option_map (fun s => str_replace s worktree_token (root_path h))
                          (source_path cfg) /\
     game_path cfg' = option_map (fun g => str_replace g worktree_token (root_path h))
                        (game_path cfg)).
Proof.
  split; [|split].
  - intros root s H; rewrite str_replace_token; apply rep_absent; exact H.
  - intros root pieces Hne Hall.
    induction pieces as [|p ps IH]; [congruence|].
    inversion Hall as [|? ? Hp Hps]; subst.
    destruct ps as [|q qs].
    + change (join_with worktree_token [p]) with p.
      change (join_with root [p]) with p.
      rewrite str_replace_token; apply rep_absent; exact Hp.
    + change (join_with worktree_token (p :: q :: qs))
        with (p ++ worktree_token ++ join_with worktree_token (q :: qs)).
      change (join_with root (p :: q :: qs))
        with (p ++ root ++ join_with root (q :: qs)).
      rewrite str_replace_token; unfold worktree_token.
      rewrite rep_first by (exact token_head_unique || exact Hp).
      fold worktree_token.
      rewrite <- str_replace_token.
      rewrite IH by (discriminate || exact Hps).
      reflexivity.
  - intros h cfg cfg' H; unfold resolve_debug_config in H.
    destruct (sdk_path cfg); [|destruct (detect_sdk_path h)];
      simpl in H; inversion H; subst; simpl; split; reflexivity.
Qed.

Lemma worktree_root_substitution_witness :
  str_replace "/a/b" worktree_token "/proj" = "/a/b" /\
  str_replace (join_with worktree_token [""; "/x/"; "/y"]) worktree_token "/proj"
  = join_with "/proj" [""; "/x/"; "/y"] /\
  (exists cfg', resolve_debug_config (mk_host [] "/proj" (Linux, X8664) [] (Err "x"))
                  {| request := "launch"; game_path := default_game_path;
                     source_path := default_source_path; sdk_path := Some "/sdk" |}
                = Ok cfg' /\
     source_path cfg' = Some "/proj/source" /\
     game_path cfg' = Some "/proj/builds/Game.pdx").
Proof.
  split; [|split].
  - apply worktree_root_substitution; reflexivity.
  - apply worktree_root_substitution; [discriminate|].
    repeat constructor.
  - exists {| request := "launch"; game_path := Some "/proj/builds/Game.pdx";
              source_path := Some "/proj/source"; sdk_path := Some "/sdk" |}.
    assert (E : resolve_debug_config (mk_host [] "/proj" (Linux, X8664) [] (Err "x"))
                  {| request := "launch"; game_path := default_game_path;
                     source_path := default_source_path; sdk_path := Some "/sdk" |}
                = Ok {| request := "launch"; game_path := Some "/proj/builds/Game.pdx";
                        source_path := Some "/proj/source"; sdk_path := Some "/sdk" |})
      by reflexivity.
    destruct (proj2 (proj2 worktree_root_substitution) _ _ _ E) as [E1 E2].
    split; [exact E|split]; [rewrite E1|rewrite E2]; reflexivity.
Defined.

(** C4 (as stated): with neither override nor existing path check, the home
    component is taken from [HOME] on Linux.  On Linux with [USERPROFILE]
    listed before [HOME] the code takes [USERPROFILE]. *)
Lemma detect_sdk_path_home_counterexample :
  detect_sdk_path (mk_host [("USERPROFILE", "/u"); ("HOME", "/h")] "/proj"
                     (Linux, X8664) [] (Err "x"))
  = Ok "/u/.local/share/playdate-sdk" /\
  detect_sdk_path (mk_host [("USERPROFILE", "/u"); ("HOME", "/h")] "/proj"
                     (Linux, X8664) [] (Err "x"))
  <> Ok ("/h" ++ conventional_suffix Linux).
Proof. split; [reflexivity|discriminate]. Qed.

(** C4 (amended): [detect_sdk_path] returns the value of the first
    [PLAYDATE_SDK_PATH] entry with a non-empty value; without one it returns
    the home value followed by "/Developer/PlaydateSDK" (Mac),
    "/.local/share/playdate-sdk" (Linux) or "\Documents\PlaydateSDK"
    (Windows), where the home value is that of the first entry whose key is
    [HOME] or [USERPROFILE], either key on every OS, and the empty string if
    there is none.  No file system is consulted. *)
Theorem detect_sdk_path_spec (h : Host) :
  (forall pre v post,
     shell_env h = (pre ++ ("PLAYDATE_SDK_PATH", v) :: post)%list ->
     v <> "" ->
     Forall (fun kv => fst kv = "PLAYDATE_SDK_PATH" -> snd kv = "") pre ->
     detect_sdk_path h = Ok v) /\
  (Forall (fun kv => fst kv = "PLAYDATE_SDK_PATH" -> snd kv = "") (shell_env h) ->
     (forall pre k v post,
        shell_env h = (pre ++ (k, v) :: post)%list ->
        k = "HOME" \/ k = "USERPROFILE" ->
        Forall (fun kv => fst kv <> "HOME" /\ fst kv <> "USERPROFILE") pre ->
        detect_sdk_path h = Ok (v ++ conventional_suffix (fst (current_platform h)))) /\
     (Forall (fun kv => fst kv <> "HOME" /\ fst kv <> "USERPROFILE") (shell_env h) ->
        detect_sdk_path h = Ok (conventional_suffix (fst (current_platform h))))).
Proof.
  split.
  - intros pre v post Henv Hv Hpre.
    unfold detect_sdk_path; rewrite Henv, find_sdk_env_first by assumption.
    reflexivity.
  - intro Hno; apply find_sdk_env_none in Hno.
    split.
    + intros pre k v post Henv Hk Hpre.
      rewrite detect_sdk_path_fallback by exact Hno.
      rewrite Henv, home_of_first by assumption; reflexivity.
    + intro Hnone.
      rewrite detect_sdk_path_fallback by exact Hno.
      rewrite home_of_none by exact Hnone; reflexivity.
Qed.

Lemma detect_sdk_path_spec_witness :
  detect_sdk_path (mk_host [("PLAYDATE_SDK_PATH", ""); ("PLAYDATE_SDK_PATH", "/sdk")]
                     "/proj" (Mac, Aarch64) [] (Err "x")) = Ok "/sdk" /\
  detect_sdk_path (mk_host [("USERPROFILE", "/u"); ("HOME", "/h")]
                     "/proj" (Linux, X8664) [] (Err "x"))
  = Ok ("/u" ++ conventional_suffix Linux) /\
  detect_sdk_path (mk_host [] "/proj" (Windows, X8664) [] (Err "x"))
  = Ok (conventional_suffix Windows).
Proof.
  split; [|split].
  - apply (proj1 (detect_sdk_path_spec
                    (mk_host [("PLAYDATE_SDK_PATH", ""); ("PLAYDATE_SDK_PATH", "/sdk")]
                       "/proj" (Mac, Aarch64) [] (Err "x")))
             [("PLAYDATE_SDK_PATH", "")] "/sdk" []);
      [reflexivity|discriminate|repeat constructor].
  - apply (proj1 (proj2 (detect_sdk_path_spec
                           (mk_host [("USERPROFILE", "/u"); ("HOME", "/h")]
                              "/proj" (Linux, X8664) [] (Err "x")))
                    ltac:(repeat constructor; simpl; discriminate))
             [] "USERPROFILE" "/u" [("HOME", "/h")]);
      [reflexivity|right; reflexivity|constructor].
  - apply (proj2 (proj2 (detect_sdk_path_spec
                           (mk_host [] "/proj" (Windows, X8664) [] (Err "x")))
                    (Forall_nil _))).
    constructor.
Defined.

(** C10: [detect_sdk_path] never fails: for every environment, also one
    without [PLAYDATE_SDK_PATH], [HOME] and [USERPROFILE] (the home value is
    then empty), it returns [Ok].  Hence the SDK detection of
    [get_dap_binary] never makes it fail, and
    [language_server_workspace_configuration] always takes the branch with
    a detected SDK path. *)
Theorem detect_sdk_path_never_fails :
  (forall h, exists p, detect_sdk_path h = Ok p) /\
  (forall h,
     Forall (fun kv => fst kv <> "PLAYDATE_SDK_PATH" /\ fst kv <> "HOME"
                       /\ fst kv <> "USERPROFILE") (shell_env h) ->
     detect_sdk_path h = Ok (EmptyString ++ conventional_suffix (fst (current_platform h)))) /\
  (forall h cfg, exists cfg', resolve_debug_config h cfg = Ok cfg' /\ sdk_path cfg' <> None) /\
  (forall h st tr, exists p,
     language_server_workspace_configuration h LSP_SERVER_ID st tr
     = workspace_configuration_with h (Some p) st tr).
Proof.
  split; [|split; [|split]].
  - intro h; destruct (detect_sdk_path_ok_nonempty h) as [p [Hp _]]; eauto.
  - intros h Hall.
    rewrite detect_sdk_path_fallback.
    + rewrite home_of_none; [reflexivity|].
      eapply Forall_impl; [|exact Hall]; simpl; tauto.
    + apply find_sdk_env_none.
      eapply Forall_impl; [|exact Hall]; simpl; tauto.
  - intros h cfg; destruct (detect_sdk_path_ok_nonempty h) as [p [Hp _]].
    unfold resolve_debug_config; destruct (sdk_path cfg) as [q|]; simpl.
    + eexists; split; [reflexivity|discriminate].
    + rewrite Hp; simpl; eexists; split; [reflexivity|discriminate].
  - intros h st tr; destruct (detect_sdk_path_ok_nonempty h) as [p [Hp _]].
    exists p; unfold language_server_workspace_configuration; rewrite Hp.
    reflexivity.
Qed.

Lemma detect_sdk_path_never_fails_witness :
  detect_sdk_path (mk_host [("PATH", "/bin")] "/proj" (Linux, Aarch64) [] (Err "x"))
  = Ok "/.local/share/playdate-sdk".
Proof.
  apply (proj1 (proj2 detect_sdk_path_never_fails)).
  repeat constructor; simpl; discriminate.
Defined.

(** C5: for the debug configuration {"request":"launch"} with worktree root
    "/proj" and no [gamePath], [sourcePath] or [sdkPath], [get_dap_binary]
    succeeds and its resolved configuration has gamePath
    "/proj/builds/Game.pdx", sourcePath "/proj/source" and a non-empty
    sdkPath (the detected SDK path). *)
Theorem launch_defaults_resolved (h : Host) (task : DebugTaskDefinition) :
  root_path h = "/proj" ->
  config task = JObj [("request", JStr "launch")] ->
  exists b sdk,
    get_dap_binary h "Playdate" task = Ok b /\
    json_get "gamePath" (configuration (request_args b)) = Some (JStr "/proj/builds/Game.pdx") /\
    json_get "sourcePath" (configuration (request_args b)) = Some (JStr "/proj/source") /\
    json_get "sdkPath" (configuration (request_args b)) = Some (JStr sdk) /\
    detect_sdk_path h = Ok sdk /\
    sdk <> "".
Proof.
  intros Hroot Hcfg.
  destruct (detect_sdk_path_ok_nonempty h) as [p [Hp Hne]].
  unfold get_dap_binary, resolve_debug_config, get_simulator_path, rbind, task_config.
  rewrite Hcfg, Hroot, Hp.
  destruct (connection_params (tcp_connection task)) as [[x y] z].
  destruct (current_platform h) as [[] arch]; cbn;
    eexists; exists p; (split; [reflexivity|]); cbn; auto.
Qed.

Lemma launch_defaults_resolved_witness :
  exists b sdk,
    get_dap_binary (mk_host [("HOME", "/home/u")] "/proj" (Mac, Aarch64) [] (Err "x"))
      "Playdate" launch_task = Ok b /\
    json_get "gamePath" (configuration (request_args b)) = Some (JStr "/proj/builds/Game.pdx") /\
    json_get "sourcePath" (configuration (request_args b)) = Some (JStr "/proj/source") /\
    json_get "sdkPath" (configuration (request_args b)) = Some (JStr sdk) /\
    detect_sdk_path (mk_host [("HOME", "/home/u")] "/proj" (Mac, Aarch64) [] (Err "x"))
    = Ok sdk /\
    sdk <> "".
Proof. apply launch_defaults_resolved; reflexivity. Defined.

(** C6: whenever [get_dap_binary] succeeds, its connection is
    127.0.0.1 (0x7f000001), port 55934 and timeout 5000 ms without a TCP
    override, and with an override each of host, port and timeout is the
    override's value when present and the default otherwise. *)
Theorem dap_connection_defaults (h : Host) (name : string)
  (task : DebugTaskDefinition) (b : DebugAdapterBinary) :
  get_dap_binary h name task = Ok b ->
  (tcp_connection task = None ->
     connection b = Some {| host := 2130706433%N; port := 55934%N; timeout := Some 5000%N |}) /\
  (forall t, tcp_connection task = Some t ->
     connection b =
       Some {| host := match template_host t with Some x => x | None => 2130706433%N end;
               port := match template_port t with Some x => x | None => 55934%N end;
               timeout := Some match template_timeout t with
                               | Some x => x | None => 5000%N end |}).
Proof.
  intro H; apply get_dap_binary_connection in H; rewrite H.
  split; [intros ->; reflexivity|intros t ->; reflexivity].
Qed.

Lemma dap_connection_defaults_witness :
  exists b,
    get_dap_binary (mk_host [] "/proj" (Linux, X8664) [] (Err "x")) "Playdate"
      {| label := "attach"; adapter := "Playdate";
         config := JObj [("request", JStr "attach"); ("sdkPath", JStr "/custom/sdk")];
         tcp_connection := Some {| template_host := None; template_port := Some 9000%N;
                                   template_timeout := None |} |} = Ok b /\
    connection b = Some {| host := 2130706433%N; port := 9000%N; timeout := Some 5000%N |}.
Proof.
  eexists; split; [reflexivity|].
  refine (proj2 (dap_connection_defaults
                   (mk_host [] "/proj" (Linux, X8664) [] (Err "x")) "Playdate"
                   {| label := "attach"; adapter := "Playdate";
                      config := JObj [("request", JStr "attach");
                                      ("sdkPath", JStr "/custom/sdk")];
                      tcp_connection := Some {| template_host := None;
                                                template_port := Some 9000%N;
                                                template_timeout := None |} |}
                   _ eq_refl) _ eq_refl).
Defined.

(** C1 (as stated): on x86, with the tool neither on the search path nor
    cached, the release index is queried before the platform is rejected. *)
Lemma binary_path_x86_counterexample :
  fst (fst (language_server_binary_path
              (mk_host [] "/proj" (Linux, X86) [] (Ok sample_release))
              "playdate-lua-language-server" new_extension []))
  = Err "unsupported platform x86" /\
  existsb is_network_event
    (snd (language_server_binary_path
            (mk_host [] "/proj" (Linux, X86) [] (Ok sample_release))
            "playdate-lua-language-server" new_extension []))
  = true.
Proof. split; reflexivity. Qed.

(** C1 (amended): on an x86 platform, with the tool neither on the search
    path nor cached, [language_server_binary_path] sets the
    checking-for-update status, queries the release index once, and then
    fails: with the unsupported-platform error when the query succeeds, with
    the query's error otherwise.  The download primitive is never invoked
    and the cache is left unchanged. *)
Theorem binary_path_x86_no_download (h : Host) (lsid : string)
  (st : PlaydateExtension) (tr : list Event) :
  which h "lua-language-server" = None ->
  cached_binary_path st = None ->
  snd (current_platform h) = X86 ->
  language_server_binary_path h lsid st tr
  = (match latest_github_release_of h "LuaLS/lua-language-server"
             {| require_assets := true; pre_release := false |} with
     | Ok _ => Err "unsupported platform x86"
     | Err e => Err e
     end, st,
     (tr ++ [EvSetInstallationStatus lsid CheckingForUpdate;
             EvLatestGithubRelease "LuaLS/lua-language-server"
               {| require_assets := true; pre_release := false |}])%list).
Proof.
  intros Hw Hc Hx.
  unfold language_server_binary_path; rewrite Hw.
  unfold_ext; cbn; rewrite Hc; cbn.
  rewrite <- app_assoc.
  destruct (latest_github_release_of h "LuaLS/lua-language-server"
              {| require_assets := true; pre_release := false |}); [|reflexivity].
  destruct (current_platform h) as [os arch]; simpl in Hx; subst arch.
  reflexivity.
Qed.

Lemma binary_path_x86_no_download_witness :
  language_server_binary_path (mk_host [] "/proj" (Windows, X86) [] (Ok sample_release))
    "playdate-lua-language-server" new_extension []
  = (Err "unsupported platform x86", new_extension,
     [EvSetInstallationStatus "playdate-lua-language-server" CheckingForUpdate;
      EvLatestGithubRelease "LuaLS/lua-language-server"
        {| require_assets := true; pre_release := false |}]).
Proof.
  apply (binary_path_x86_no_download
           (mk_host [] "/proj" (Windows, X86) [] (Ok sample_release))
           "playdate-lua-language-server" new_extension []); reflexivity.
Defined.

(** C2: a tool on the executable search path is returned at once, with no
    state change and no host call; otherwise a successful resolution leaves
    the path in the cache, and every later call (with the tool still not on
    the search path) returns that same path, changes nothing and makes no
    host call at all, in particular no release query and no download. *)
Theorem binary_path_resolved_once (lsid : string) :
  (forall h st tr p,
     which h "lua-language-server" = Some p ->
     language_server_binary_path h lsid st tr = (Ok p, st, tr)) /\
  (forall h st tr p st' tr',
     which h "lua-language-server" = None ->
     language_server_binary_path h lsid st tr = (Ok p, st', tr') ->
     cached_binary_path st' = Some p /\
     forall hs, Forall (fun h' => which h' "lua-language-server" = None) hs ->
       run_binary_path_calls hs lsid st' tr' = (map (fun _ => Ok p) hs, st', tr')).
Proof.
  split.
  - intros h st tr p Hw; apply binary_path_on_path; exact Hw.
  - intros h st tr p st' tr' Hw H.
    pose proof (binary_path_writes_cache h lsid st tr p st' tr' Hw H) as Hc.
    split; [exact Hc|].
    intros hs Hhs; induction Hhs as [|h' hs Hw' _ IH]; [reflexivity|].
    simpl; rewrite (binary_path_cached h' lsid st' tr' p Hw' Hc), IH; reflexivity.
Qed.

Lemma binary_path_resolved_once_witness :
  run_binary_path_calls [mk_host [] "/proj" (Linux, X8664) [] (Ok sample_release)]
    "id"
    {| cached_binary_path := Some "lua-language-server-3.13.5/bin/lua-language-server";
       cached_luacats_path := None |}
    [EvSetInstallationStatus "id" CheckingForUpdate;
     EvLatestGithubRelease "LuaLS/lua-language-server"
       {| require_assets := true; pre_release := false |};
     EvSetInstallationStatus "id" Downloading;
     EvDownloadFile "https://example.org/linux-x64.tar.gz" "lua-language-server-3.13.5" GzipTar]
  = ([Ok "lua-language-server-3.13.5/bin/lua-language-server"],
     {| cached_binary_path := Some "lua-language-server-3.13.5/bin/lua-language-server";
        cached_luacats_path := None |},
     [EvSetInstallationStatus "id" CheckingForUpdate;
      EvLatestGithubRelease "LuaLS/lua-language-server"
        {| require_assets := true; pre_release := false |};
      EvSetInstallationStatus "id" Downloading;
      EvDownloadFile "https://example.org/linux-x64.tar.gz" "lua-language-server-3.13.5" GzipTar]).
Proof.
  refine (proj2 (proj2 (binary_path_resolved_once "id")
                  (mk_host [] "/proj" (Linux, X8664) [] (Ok sample_release))
                  new_extension [] "lua-language-server-3.13.5/bin/lua-language-server"
                  {| cached_binary_path :=
                       Some "lua-language-server-3.13.5/bin/lua-language-server";
                     cached_luacats_path := None |}
                  [EvSetInstallationStatus "id" CheckingForUpdate;
                   EvLatestGithubRelease "LuaLS/lua-language-server"
                     {| require_assets := true; pre_release := false |};
                   EvSetInstallationStatus "id" Downloading;
                   EvDownloadFile "https://example.org/linux-x64.tar.gz"
                     "lua-language-server-3.13.5" GzipTar]
                  eq_refl ltac:(reflexivity))
                [mk_host [] "/proj" (Linux, X8664) [] (Ok sample_release)] _).
  repeat constructor.
Defined.

(** C8: for every version and every supported (OS, architecture) pair the
    expected asset is "lua-language-server-{version}-{os}-{arch}.{ext}" with
    os darwin/linux/win32, arch arm64/x64 and ext tar.gz (Mac, Linux) or
    zip (Windows); x86 has no asset name.  The resolver looks the release's
    assets up by exactly that name: without a match it fails naming it, with
    one it downloads that asset's URL. *)
Theorem lua_asset_name_table (v : string) :
  lua_asset_name v Mac Aarch64 = Ok ("lua-language-server-" ++ v ++ "-darwin-arm64.tar.gz") /\
  lua_asset_name v Mac X8664 = Ok ("lua-language-server-" ++ v ++ "-darwin-x64.tar.gz") /\
  lua_asset_name v Linux Aarch64 = Ok ("lua-language-server-" ++ v ++ "-linux-arm64.tar.gz") /\
  lua_asset_name v Linux X8664 = Ok ("lua-language-server-" ++ v ++ "-linux-x64.tar.gz") /\
  lua_asset_name v Windows Aarch64 = Ok ("lua-language-server-" ++ v ++ "-win32-arm64.zip") /\
  lua_asset_name v Windows X8664 = Ok ("lua-language-server-" ++ v ++ "-win32-x64.zip") /\
  (forall os, lua_asset_name v os X86 = Err "unsupported platform x86") /\
  (forall h lsid st tr rel name,
     which h "lua-language-server" = None ->
     cached_binary_path st = None ->
     latest_github_release_of h "LuaLS/lua-language-server"
       {| require_assets := true; pre_release := false |} = Ok rel ->
     lua_asset_name (version rel) (fst (current_platform h)) (snd (current_platform h))
     = Ok name ->
     (find (fun a => String.eqb (asset_name a) name) (assets rel) = None ->
        fst (fst (language_server_binary_path h lsid st tr))
        = Err ("no asset found matching " ++ debug_str name)) /\
     (forall a, find (fun a => String.eqb (asset_name a) name) (assets rel) = Some a ->
        exists ft, In (EvDownloadFile (download_url a) ("lua-language-server-" ++ version rel) ft)
                     (snd (language_server_binary_path h lsid st tr)))).
Proof.
  do 6 (split; [reflexivity|]).
  split; [intro os; reflexivity|].
  intros h lsid st tr rel name Hw Hc Hrel Hname.
  unfold language_server_binary_path; rewrite Hw.
  unfold_ext; cbn; rewrite Hc; cbn; rewrite Hrel; cbn.
  destruct (current_platform h) as [os arch]; simpl in Hname; rewrite Hname; cbn.
  split.
  - intro Hf; rewrite Hf; reflexivity.
  - intros a Hf; rewrite Hf; cbn.
    destruct os; eexists; cbn;
      match goal with
      | |- context[download_file_of ?h ?u ?d ?t] => destruct (download_file_of h u d t)
      end; cbn; apply in_or_app; right; left; reflexivity.
Qed.

Lemma lua_asset_name_table_witness :
  fst (fst (language_server_binary_path
              (mk_host [] "/proj" (Windows, Aarch64) [] (Ok sample_release))
              "id" new_extension []))
  = Err ("no asset found matching "
         ++ debug_str "lua-language-server-3.13.5-win32-arm64.zip") /\
  exists ft,
    In (EvDownloadFile "https://example.org/linux-x64.tar.gz" "lua-language-server-3.13.5" ft)
       (snd (language_server_binary_path
               (mk_host [] "/proj" (Linux, X8664) [] (Ok sample_release))
               "id" new_extension [])).
Proof.
  pose proof (lua_asset_name_table "3.13.5") as (_ & _ & _ & _ & _ & _ & _ & Hres).
  split.
  - apply (Hres (mk_host [] "/proj" (Windows, Aarch64) [] (Ok sample_release))
             "id" new_extension [] sample_release
             "lua-language-server-3.13.5-win32-arm64.zip"); reflexivity.
  - refine (proj2 (Hres (mk_host [] "/proj" (Linux, X8664) [] (Ok sample_release))
                     "id" new_extension [] sample_release
                     "lua-language-server-3.13.5-linux-x64.tar.gz"
                     eq_refl eq_refl eq_refl eq_refl)
              {| asset_name := "lua-language-server-3.13.5-linux-x64.tar.gz";
                 download_url := "https://example.org/linux-x64.tar.gz" |} eq_refl).
Defined.

(** C9: the live workspace configuration lists the SDK's CoreLibs directory
    and then the type-definitions directory: with SDK path [sdk] and
    type-definitions path [p] the [workspace.library] value is exactly
    [[sdk ++ "/CoreLibs"; p]].  Without an SDK path the entry is left out and
    the request still succeeds; a failure of the type-definition resolution
    is the request's error. *)
Theorem workspace_library_order (h : Host) (st : PlaydateExtension) (tr : list Event) :
  (forall sdk p st' tr',
     detect_sdk_path h = Ok sdk ->
     playdate_luacats_path h st tr = (Ok p, st', tr') ->
     exists cfg,
       language_server_workspace_configuration h LSP_SERVER_ID st tr
       = (Ok (Some cfg), st', tr') /\
       json_path ["Lua"; "workspace"; "library"] cfg
       = Some (JArr [JStr (sdk ++ "/CoreLibs"); JStr p])) /\
  (forall p st' tr',
     playdate_luacats_path h st tr = (Ok p, st', tr') ->
     exists cfg,
       workspace_configuration_with h None st tr = (Ok (Some cfg), st', tr') /\
       json_path ["Lua"; "workspace"; "library"] cfg = Some (JArr [JStr p])) /\
  (forall e st' tr',
     playdate_luacats_path h st tr = (Err e, st', tr') ->
     language_server_workspace_configuration h LSP_SERVER_ID st tr = (Err e, st', tr')).
Proof.
  split; [|split].
  - intros sdk p st' tr' Hd Hl.
    unfold language_server_workspace_configuration; rewrite Hd; cbn.
    rewrite workspace_configuration_with_eq, Hl.
    eexists; split; [reflexivity|apply workspace_settings_library].
  - intros p st' tr' Hl.
    rewrite workspace_configuration_with_eq, Hl.
    eexists; split; [reflexivity|apply workspace_settings_library].
  - intros e st' tr' Hl.
    unfold language_server_workspace_configuration; cbn.
    rewrite workspace_configuration_with_eq, Hl; reflexivity.
Qed.

Lemma workspace_library_order_witness :
  exists cfg,
    language_server_workspace_configuration
      (mk_host [("PLAYDATE_SDK_PATH", "/sdk")] "/proj" (Linux, X8664) [] (Err "x"))
      LSP_SERVER_ID
      {| cached_binary_path := None; cached_luacats_path := Some "/cache/typedefs" |} []
    = (Ok (Some cfg),
       {| cached_binary_path := None; cached_luacats_path := Some "/cache/typedefs" |}, []) /\
    json_path ["Lua"; "workspace"; "library"] cfg
    = Some (JArr [JStr "/sdk/CoreLibs"; JStr "/cache/typedefs"]).
Proof.
  apply (proj1 (workspace_library_order
                  (mk_host [("PLAYDATE_SDK_PATH", "/sdk")] "/proj" (Linux, X8664) [] (Err "x"))
                  {| cached_binary_path := None; cached_luacats_path := Some "/cache/typedefs" |}
                  [])
           "/sdk" "/cache/typedefs"); reflexivity.
Defined.

(** * Further properties of the code *)

(** ** Debug configuration resolution *)

Lemma resolve_debug_config_eq (h : Host) (cfg : PlaydateDebugConfig) (p : string) :
  detect_sdk_path h = Ok p ->
  resolve_debug_config h cfg
  = Ok {| request := request cfg;
          game_path := option_map (fun g => str_replace g worktree_token (root_path h))
                         (game_path cfg);
          source_path := option_map (fun s => str_replace s worktree_token (root_path h))
                           (source_path cfg);
          sdk_path := Some match sdk_path cfg with Some q => q | None => p end |}.
Proof.
  intro Hp; unfold resolve_debug_config.
  destruct (sdk_path cfg); [reflexivity|rewrite Hp; reflexivity].
Qed.

(** Attach mode: once the configuration parses, [get_dap_binary] succeeds
    with no command, no arguments, no environment and no working directory. *)
Theorem dap_attach_no_command (h : Host) (task : DebugTaskDefinition)
  (cfg : PlaydateDebugConfig) :
  parse_debug_config (config task) = Ok cfg ->
  request cfg = "attach" ->
  exists b, get_dap_binary h "Playdate" task = Ok b /\
    command b = None /\ arguments b = [] /\ envs b = [] /\ cwd b = None /\
    request_kind (request_args b) = Attach.
Proof.
  intros Hparse Hreq.
  destruct (detect_sdk_path_ok_nonempty h) as [p [Hp _]].
  unfold get_dap_binary, rbind, task_config; rewrite Hparse; cbn.
  rewrite (resolve_debug_config_eq h cfg p Hp).
  unfold get_request_type; cbn; rewrite Hreq; cbn.
  destruct (connection_params (tcp_connection task)) as [[x y] z].
  eexists; split; [reflexivity|]; repeat split.
Qed.

Lemma dap_attach_no_command_witness :
  exists b, get_dap_binary (mk_host [] "/proj" (Linux, X8664) [] (Err "x")) "Playdate"
              {| label := "a"; adapter := "Playdate";
                 config := JObj [("request", JStr "attach"); ("gamePath", JNull)];
                 tcp_connection := None |} = Ok b /\
    command b = None /\ arguments b = [] /\ envs b = [] /\ cwd b = None /\
    request_kind (request_args b) = Attach.
Proof.
  apply (dap_attach_no_command (mk_host [] "/proj" (Linux, X8664) [] (Err "x"))
           {| label := "a"; adapter := "Playdate";
              config := JObj [("request", JStr "attach"); ("gamePath", JNull)];
              tcp_connection := None |}
           {| request := "attach"; game_path := None;
              source_path := default_source_path; sdk_path := None |});
    reflexivity.
Defined.

(** Launch mode: the command is the simulator inside the detected SDK (a
    [sdkPath] in the configuration is not used for it), the single argument
    is the game path after root substitution, and no working directory is
    set. *)
Theorem dap_launch_command (h : Host) (task : DebugTaskDefinition)
  (cfg : PlaydateDebugConfig) (g sdk : string) :
  parse_debug_config (config task) = Ok cfg ->
  request cfg = "launch" ->
  game_path cfg = Some g ->
  detect_sdk_path h = Ok sdk ->
  exists b, get_dap_binary h "Playdate" task = Ok b /\
    command b = Some (sdk ++ match fst (current_platform h) with
                             | Mac => "/bin/Playdate Simulator.app/Contents/MacOS/Playdate Simulator"
                             | Linux => "/bin/PlaydateSimulator"
                             | Windows => "\bin\PlaydateSimulator.exe"
                             end) /\
    arguments b = [str_replace g worktree_token (root_path h)] /\
    cwd b = None /\ envs b = [] /\
    request_kind (request_args b) = Launch.
Proof.
  intros Hparse Hreq Hg Hd.
  unfold get_dap_binary, rbind, task_config; rewrite Hparse; cbn.
  rewrite (resolve_debug_config_eq h cfg sdk Hd).
  unfold get_request_type; cbn; rewrite Hreq; cbn.
  unfold get_simulator_path; rewrite Hd, Hg; cbn.
  destruct (connection_params (tcp_connection task)) as [[x y] z].
  destruct (current_platform h) as [[] arch];
    eexists; (split; [reflexivity|]); repeat split.
Qed.

Lemma dap_launch_command_witness :
  exists b, get_dap_binary (mk_host [("HOME", "/home/u")] "/proj" (Linux, X8664) [] (Err "x"))
              "Playdate"
              {| label := "l"; adapter := "Playdate";
                 config := JObj [("request", JStr "launch"); ("sdkPath", JStr "/custom/sdk")];
                 tcp_connection := None |} = Ok b /\
    command b = Some ("/home/u/.local/share/playdate-sdk" ++ "/bin/PlaydateSimulator") /\
    arguments b = [str_replace "$ZED_WORKTREE_ROOT/builds/Game.pdx" worktree_token "/proj"] /\
    cwd b = None /\ envs b = [] /\
    request_kind (request_args b) = Launch.
Proof.
  apply (dap_launch_command (mk_host [("HOME", "/home/u")] "/proj" (Linux, X8664) [] (Err "x"))
           {| label := "l"; adapter := "Playdate";
              config := JObj [("request", JStr "launch"); ("sdkPath", JStr "/custom/sdk")];
              tcp_connection := None |}
           {| request := "launch"; game_path := default_game_path;
              source_path := default_source_path; sdk_path := Some "/custom/sdk" |}
           "$ZED_WORKTREE_ROOT/builds/Game.pdx" "/home/u/.local/share/playdate-sdk");
    reflexivity.
Defined.

(** Launch mode with [gamePath] explicitly [null]: the default does not
    apply and [get_dap_binary] fails. *)
Theorem dap_launch_requires_game_path (h : Host) (task : DebugTaskDefinition)
  (cfg : PlaydateDebugConfig) :
  parse_debug_config (config task) = Ok cfg ->
  request cfg = "launch" ->
  game_path cfg = None ->
  get_dap_binary h "Playdate" task = Err "No game_path specified in launch configuration".
Proof.
  intros Hparse Hreq Hg.
  destruct (detect_sdk_path_ok_nonempty h) as [p [Hp _]].
  unfold get_dap_binary, rbind, task_config; rewrite Hparse; cbn.
  rewrite (resolve_debug_config_eq h cfg p Hp).
  unfold get_request_type; cbn; rewrite Hreq; cbn.
  unfold get_simulator_path; rewrite Hp, Hg; cbn.
  destruct (connection_params (tcp_connection task)) as [[x y] z].
  destruct (current_platform h) as [[] arch]; reflexivity.
Qed.

Lemma dap_launch_requires_game_path_witness :
  get_dap_binary (mk_host [] "/proj" (Mac, Aarch64) [] (Err "x")) "Playdate"
    {| label := "l"; adapter := "Playdate";
       config := JObj [("request", JStr "launch"); ("gamePath", JNull)];
       tcp_connection := None |}
  = Err "No game_path specified in launch configuration".
Proof.
  apply (dap_launch_requires_game_path (mk_host [] "/proj" (Mac, Aarch64) [] (Err "x"))
           {| label := "l"; adapter := "Playdate";
              config := JObj [("request", JStr "launch"); ("gamePath", JNull)];
              tcp_connection := None |}
           {| request := "launch"; game_path := None;
              source_path := default_source_path; sdk_path := None |});
    reflexivity.
Defined.

Definition resolved_config (h : Host) (cfg : PlaydateDebugConfig) (p : string)
  : PlaydateDebugConfig :=
  {| request := request cfg;
     game_path := option_map (fun g => str_replace g worktree_token (root_path h))
                    (game_path cfg);
     source_path := option_map (fun s => str_replace s worktree_token (root_path h))
                      (source_path cfg);
     sdk_path := Some match sdk_path cfg with Some q => q | None => p end |}.

Lemma get_dap_binary_ok_inv (h : Host) (name : string) (task : DebugTaskDefinition)
  (b : DebugAdapterBinary) :
  get_dap_binary h name task = Ok b ->
  exists cfg p, name = ADAPTER_NAME /\
    parse_debug_config (config task) = Ok cfg /\
    detect_sdk_path h = Ok p /\
    get_request_type cfg = Ok (request_kind (request_args b)) /\
    configuration (request_args b) = serialize_debug_config (resolved_config h cfg p).
Proof.
  intro H.
  destruct (detect_sdk_path_ok_nonempty h) as [p [Hp _]].
  unfold get_dap_binary in H.
  destruct (String.eqb name ADAPTER_NAME) eqn:E; cbn in H; [|discriminate].
  apply String.eqb_eq in E.
  unfold rbind, map_err, task_config in H.
  destruct (parse_debug_config (config task)) as [cfg|e] eqn:Hparse; [|discriminate].
  rewrite (resolve_debug_config_eq h cfg p Hp) in H.
  fold (resolved_config h cfg p) in H.
  destruct (get_request_type (resolved_config h cfg p)) as [rk|e] eqn:Hr; [|discriminate].
  destruct (connection_params (tcp_connection task)) as [[x y] z].
  assert (Hq : get_request_type cfg = Ok rk) by exact Hr.
  exists cfg, p; repeat split; auto.
  - destruct rk.
    + destruct (get_simulator_path h); [|discriminate].
      destruct (game_path (resolved_config h cfg p)); [|discriminate].
      destruct (current_platform h) as [[] arch]; injection H as <-; exact Hq.
    + injection H as <-; exact Hq.
  - destruct rk.
    + destruct (get_simulator_path h); [|discriminate].
      destruct (game_path (resolved_config h cfg p)); [|discriminate].
      destruct (current_platform h) as [[] arch]; injection H as <-; reflexivity.
    + injection H as <-; reflexivity.
Qed.

(** The configuration sent to the adapter: [request] is kept, [gamePath]
    and [sourcePath] appear with the worktree root substituted and are
    absent when they are [null], and [sdkPath] is the configured string,
    taken verbatim (no root substitution), or else the detected SDK path. *)
Theorem dap_final_configuration (h : Host) (name : string)
  (task : DebugTaskDefinition) (cfg : PlaydateDebugConfig) (b : DebugAdapterBinary) :
  parse_debug_config (config task) = Ok cfg ->
  get_dap_binary h name task = Ok b ->
  exists p, detect_sdk_path h = Ok p /\
    let conf := configuration (request_args b) in
    json_get "request" conf = Some (JStr (request cfg)) /\
    json_get "gamePath" conf
      = option_map (fun g => JStr (str_replace g worktree_token (root_path h))) (game_path cfg) /\
    json_get "sourcePath" conf
      = option_map (fun s => JStr (str_replace s worktree_token (root_path h))) (source_path cfg) /\
    json_get "sdkPath" conf
      = Some (JStr match sdk_path cfg with Some q => q | None => p end).
Proof.
  intros Hparse H.
  destruct (get_dap_binary_ok_inv h name task b H) as (cfg' & p & _ & Hp' & Hd & _ & Hc).
  rewrite Hparse in Hp'; injection Hp' as <-.
  exists p; split; [exact Hd|]; cbn zeta; rewrite Hc.
  unfold resolved_config, serialize_debug_config.
  destruct cfg as [r [g|] [s|] [d|]]; cbn; repeat split.
Qed.

Lemma dap_final_configuration_witness :
  exists b,
    get_dap_binary (mk_host [] "/proj" (Linux, X8664) [] (Err "x")) "Playdate"
      {| label := "a"; adapter := "Playdate";
         config := JObj [("request", JStr "attach"); ("gamePath", JNull);
                         ("sdkPath", JStr "$ZED_WORKTREE_ROOT/sdk")];
         tcp_connection := None |} = Ok b /\
    exists p, detect_sdk_path (mk_host [] "/proj" (Linux, X8664) [] (Err "x")) = Ok p /\
    let conf := configuration (request_args b) in
    json_get "request" conf = Some (JStr "attach") /\
    json_get "gamePath" conf = None /\
    json_get "sourcePath" conf = Some (JStr (str_replace "$ZED_WORKTREE_ROOT/source"
                                               worktree_token "/proj")) /\
    json_get "sdkPath" conf = Some (JStr "$ZED_WORKTREE_ROOT/sdk").
Proof.
  eexists; split; [reflexivity|].
  exact (dap_final_configuration (mk_host [] "/proj" (Linux, X8664) [] (Err "x")) "Playdate"
           {| label := "a"; adapter := "Playdate";
              config := JObj [("request", JStr "attach"); ("gamePath", JNull);
                              ("sdkPath", JStr "$ZED_WORKTREE_ROOT/sdk")];
              tcp_connection := None |}
           {| request := "attach"; game_path := None;
              source_path := default_source_path;
              sdk_path := Some "$ZED_WORKTREE_ROOT/sdk" |} _ eq_refl eq_refl).
Defined.

(** [get_dap_binary] and [dap_request_kind] agree: whenever a binary is
    produced, [dap_request_kind] on the same adapter name and configuration
    reports the request kind carried by the binary. *)
Theorem dap_request_kind_agrees (h : Host) (name : string)
  (task : DebugTaskDefinition) (b : DebugAdapterBinary) :
  get_dap_binary h name task = Ok b ->
  dap_request_kind name (config task) = Ok (request_kind (request_args b)).
Proof.
  intro H.
  destruct (get_dap_binary_ok_inv h name task b H) as (cfg & p & -> & Hp & _ & Hr & _).
  unfold dap_request_kind; cbn; rewrite Hp; exact Hr.
Qed.

Lemma dap_request_kind_agrees_witness :
  dap_request_kind "Playdate" (config launch_task) = Ok Launch.
Proof.
  exact (dap_request_kind_agrees (mk_host [] "/proj" (Linux, X8664) [] (Err "x"))
           "Playdate" launch_task _ eq_refl).
Defined.

(** Error behaviour of [get_dap_binary], checked in this order: an adapter
    name other than "Playdate", a configuration that does not parse, and a
    request that is neither "launch" nor "attach". *)
Theorem dap_binary_errors (h : Host) (name : string) (task : DebugTaskDefinition) :
  (String.eqb name ADAPTER_NAME = false ->
   get_dap_binary h name task = Err ("Unsupported adapter name: " ++ name)) /\
  (forall e, parse_debug_config (config task) = Err e ->
   get_dap_binary h ADAPTER_NAME task = Err ("Failed to parse debug configuration: " ++ e)) /\
  (forall cfg, parse_debug_config (config task) = Ok cfg ->
   request cfg <> "launch" -> request cfg <> "attach" ->
   get_dap_binary h ADAPTER_NAME task
   = Err ("Invalid request type '" ++ request cfg ++ "'. Expected 'launch' or 'attach'")).
Proof.
  destruct (detect_sdk_path_ok_nonempty h) as [p [Hp _]].
  split; [|split].
  - intro E; unfold get_dap_binary; rewrite E; reflexivity.
  - intros e He; unfold get_dap_binary, rbind, map_err, task_config; cbn; rewrite He; reflexivity.
  - intros cfg Hc Hl Ha.
    unfold get_dap_binary, rbind, map_err, task_config; cbn; rewrite Hc.
    rewrite (resolve_debug_config_eq h cfg p Hp).
    unfold get_request_type; cbn.
    apply String.eqb_neq in Hl, Ha; rewrite Ha, Hl; reflexivity.
Qed.

Lemma dap_binary_errors_witness :
  get_dap_binary (mk_host [] "/p" (Mac, Aarch64) [] (Err "x")) "lldb" launch_task
    = Err "Unsupported adapter name: lldb" /\
  get_dap_binary (mk_host [] "/p" (Mac, Aarch64) [] (Err "x")) ADAPTER_NAME
    {| label := "l"; adapter := "Playdate"; config := JObj [("gamePath", JNull)];
       tcp_connection := None |}
    = Err ("Failed to parse debug configuration: " ++ "missing field `request`") /\
  get_dap_binary (mk_host [] "/p" (Mac, Aarch64) [] (Err "x")) ADAPTER_NAME
    {| label := "l"; adapter := "Playdate"; config := JObj [("request", JStr "run")];
       tcp_connection := None |}
    = Err ("Invalid request type '" ++ "run" ++ "'. Expected 'launch' or 'attach'").
Proof.
  split; [|split].
  - apply (proj1 (dap_binary_errors (mk_host [] "/p" (Mac, Aarch64) [] (Err "x"))
                    "lldb" launch_task)); reflexivity.
  - apply (proj1 (proj2 (dap_binary_errors (mk_host [] "/p" (Mac, Aarch64) [] (Err "x"))
             ADAPTER_NAME
             {| label := "l"; adapter := "Playdate"; config := JObj [("gamePath", JNull)];
                tcp_connection := None |}))); reflexivity.
  - apply (proj2 (proj2 (dap_binary_errors (mk_host [] "/p" (Mac, Aarch64) [] (Err "x"))
             ADAPTER_NAME
             {| label := "l"; adapter := "Playdate"; config := JObj [("request", JStr "run")];
                tcp_connection := None |}))
             {| request := "run"; game_path := default_game_path;
                source_path := default_source_path; sdk_path := None |});
      [reflexivity | discriminate | discriminate].
Defined.

(** Serialising a debug configuration and parsing it back gives the same
    configuration, except that a [gamePath] or [sourcePath] of [None] is
    omitted on output and so comes back as its default. *)
Theorem debug_config_roundtrip (cfg : PlaydateDebugConfig) :
  parse_debug_config (serialize_debug_config cfg)
  = Ok {| request := request cfg;
          game_path := match game_path cfg with None => default_game_path | g => g end;
          source_path := match source_path cfg with None => default_source_path | s => s end;
          sdk_path := sdk_path cfg |}.
Proof.
  destruct cfg as [r [g|] [s|] [d|]]; reflexivity.
Qed.

(** ** The resolvers: outcomes, traces and the cache *)

Definition lua_release_options : GithubReleaseOptions :=
  {| require_assets := true; pre_release := false |}.

(** A failed resolution leaves the extension object untouched: neither the
    binary resolver nor the type-definition resolver caches an error or a
    partial result. *)
Theorem resolver_failures_not_cached (h : Host) (lsid : string) st tr e st' tr' :
  (language_server_binary_path h lsid st tr = (Err e, st', tr') -> st' = st) /\
  (playdate_luacats_path h st tr = (Err e, st', tr') -> st' = st).
Proof.
  split; intro H.
  - unfold language_server_binary_path in H.
    destruct (which h "lua-language-server"); [discriminate H|].
    unfold_ext_in H; cbn in H.
    destruct (cached_binary_path st); [discriminate H|].
    split_results H; injection H as _ <- _; reflexivity.
  - unfold playdate_luacats_path in H; unfold_ext_in H; cbn in H.
    destruct (cached_luacats_path st); [discriminate H|].
    split_results H; injection H as _ <- _; reflexivity.
Qed.

Lemma resolver_failures_not_cached_witness :
  language_server_binary_path (mk_host [] "/p" (Linux, X8664) [] (Err "rate limited"))
    LSP_SERVER_ID new_extension []
  = (Err "rate limited", new_extension,
     snd (language_server_binary_path (mk_host [] "/p" (Linux, X8664) [] (Err "rate limited"))
            LSP_SERVER_ID new_extension [])) /\
  snd (fst (language_server_binary_path
              (mk_host [] "/p" (Linux, X8664) [] (Err "rate limited"))
              LSP_SERVER_ID new_extension [])) = new_extension.
Proof.
  split; [reflexivity|].
  exact (proj1 (resolver_failures_not_cached
                  (mk_host [] "/p" (Linux, X8664) [] (Err "rate limited"))
                  LSP_SERVER_ID new_extension [] "rate limited" _ _) eq_refl).
Defined.

(** The download step of the binary resolver. With no binary on the PATH
    and nothing cached, once a release and its matching asset are found the
    resolver reports "checking for update", queries the release, reports
    "downloading" and downloads the asset into "lua-language-server-<version>"
    (a gzip tarball, a zip archive on Windows). On success it returns and
    caches "<dir>/bin/lua-language-server" (with ".exe" on Windows); on a
    failed download it returns the prefixed error and caches nothing. *)
Theorem binary_path_download_outcome (h : Host) (lsid : string) st tr
  (rel : GithubRelease) (name : string) (a : GithubReleaseAsset) :
  which h "lua-language-server" = None ->
  cached_binary_path st = None ->
  latest_github_release_of h "LuaLS/lua-language-server" lua_release_options = Ok rel ->
  lua_asset_name (version rel) (fst (current_platform h)) (snd (current_platform h)) = Ok name ->
  find (fun a => String.eqb (asset_name a) name) (assets rel) = Some a ->
  let os := fst (current_platform h) in
  let dir := "lua-language-server-" ++ version rel in
  let ft := match os with Windows => Zip | _ => GzipTar end in
  let events := (tr ++ [EvSetInstallationStatus lsid CheckingForUpdate;
                        EvLatestGithubRelease "LuaLS/lua-language-server" lua_release_options;
                        EvSetInstallationStatus lsid Downloading;
                        EvDownloadFile (download_url a) dir ft])%list in
  language_server_binary_path h lsid st tr
  = match download_file_of h (download_url a) dir ft with
    | Ok _ =>
        let p := dir ++ "/bin/lua-language-server"
                 ++ match os with Windows => ".exe" | _ => "" end in
        (Ok p, {| cached_binary_path := Some p;
                  cached_luacats_path := cached_luacats_path st |}, events)
    | Err e => (Err ("failed to download file: " ++ e), st, events)
    end.
Proof.
  intros Hw Hc Hrel Hname Hfind; cbn zeta.
  unfold language_server_binary_path; rewrite Hw.
  unfold_ext; cbn; rewrite Hc.
  fold lua_release_options; rewrite Hrel.
  destruct (current_platform h) as [os arch]; cbn in Hname |- *.
  rewrite Hname, Hfind; cbn.
  rewrite <- !app_assoc; cbn.
  destruct os; destruct (download_file_of h _ _ _); reflexivity.
Qed.

Lemma binary_path_download_outcome_witness :
  language_server_binary_path
    (mk_host [] "/p" (Mac, Aarch64) [] (Ok sample_release)) LSP_SERVER_ID new_extension []
  = (Ok "lua-language-server-3.13.5/bin/lua-language-server",
     {| cached_binary_path := Some "lua-language-server-3.13.5/bin/lua-language-server";
        cached_luacats_path := None |},
     [EvSetInstallationStatus LSP_SERVER_ID CheckingForUpdate;
      EvLatestGithubRelease "LuaLS/lua-language-server" lua_release_options;
      EvSetInstallationStatus LSP_SERVER_ID Downloading;
      EvDownloadFile "https://example.org/darwin-arm64.tar.gz"
        "lua-language-server-3.13.5" GzipTar]).
Proof.
  exact (binary_path_download_outcome
           (mk_host [] "/p" (Mac, Aarch64) [] (Ok sample_release)) LSP_SERVER_ID
           new_extension [] sample_release "lua-language-server-3.13.5-darwin-arm64.tar.gz"
           {| asset_name := "lua-language-server-3.13.5-darwin-arm64.tar.gz";
              download_url := "https://example.org/darwin-arm64.tar.gz" |}
           eq_refl eq_refl eq_refl eq_refl eq_refl).
Defined.

(** Without a matching asset (the release query fails, the platform has no
    asset name, or no asset of the release has that name) the binary
    resolver fails after reporting "checking for update" and querying the
    release: it never reports "downloading", never downloads and caches
    nothing. *)
Theorem binary_path_no_asset_no_download (h : Host) (lsid : string) st tr :
  which h "lua-language-server" = None ->
  cached_binary_path st = None ->
  (forall rel name,
     latest_github_release_of h "LuaLS/lua-language-server" lua_release_options = Ok rel ->
     lua_asset_name (version rel) (fst (current_platform h)) (snd (current_platform h))
       = Ok name ->
     find (fun a => String.eqb (asset_name a) name) (assets rel) = None) ->
  exists e, language_server_binary_path h lsid st tr
    = (Err e, st, (tr ++ [EvSetInstallationStatus lsid CheckingForUpdate;
                          EvLatestGithubRelease "LuaLS/lua-language-server"
                            lua_release_options])%list).
Proof.
  intros Hw Hc Hnone.
  unfold language_server_binary_path; rewrite Hw.
  unfold_ext; cbn; rewrite Hc.
  fold lua_release_options.
  destruct (latest_github_release_of h _ lua_release_options) as [rel|e] eqn:Hrel;
    cbn; [|rewrite <- app_assoc; eexists; reflexivity].
  specialize (Hnone rel); destruct (current_platform h) as [os arch]; cbn in Hnone |- *.
  destruct (lua_asset_name (version rel) os arch) as [name|e] eqn:Hn;
    cbn; [|rewrite <- app_assoc; eexists; reflexivity].
  rewrite (Hnone name eq_refl eq_refl); cbn.
  rewrite <- app_assoc; eexists; reflexivity.
Qed.

Lemma binary_path_no_asset_no_download_witness :
  exists e, language_server_binary_path
              (mk_host [] "/p" (Windows, X8664) [] (Ok sample_release)) LSP_SERVER_ID
              new_extension []
    = (Err e, new_extension,
       [EvSetInstallationStatus LSP_SERVER_ID CheckingForUpdate;
        EvLatestGithubRelease "LuaLS/lua-language-server" lua_release_options]).
Proof.
  apply (binary_path_no_asset_no_download
           (mk_host [] "/p" (Windows, X8664) [] (Ok sample_release)) LSP_SERVER_ID
           new_extension []); [reflexivity | reflexivity |].
  intros rel name Hr Hn; injection Hr as <-; cbn in Hn; injection Hn as <-; reflexivity.
Defined.

Lemma str_app_assoc (a b c : string) : (a ++ b) ++ c = a ++ (b ++ c).
Proof. induction a as [|x a IH]; cbn; [reflexivity | now rewrite IH]. Qed.

Lemma str_rev_app (a b : string) : str_rev (a ++ b) = str_rev b ++ str_rev a.
Proof.
  induction a as [|x a IH]; cbn.
  - now rewrite append_empty_r.
  - now rewrite IH, str_app_assoc.
Qed.


Lemma ends_with_slash_luacats (x : string) : ends_with_slash (x ++ "-luacats1") = false.
Proof. unfold ends_with_slash; now rewrite str_rev_app. Qed.

Lemma luacats_library_path (dir v : string) :
  dir <> "" -> ends_with_slash dir = false ->
  path_join (path_join dir ("playdate-luacats-" ++ v ++ "-luacats1")) "library"
  = dir ++ "/playdate-luacats-" ++ v ++ "-luacats1/library".
Proof.
  intros Hne Hs.
  assert (He : forall x, is_empty (dir ++ x) = false)
    by (destruct dir; [congruence|reflexivity]).
  assert (J1 : path_join dir ("playdate-luacats-" ++ v ++ "-luacats1")
               = (dir ++ "/playdate-luacats-" ++ v) ++ "-luacats1").
  { unfold path_join; cbn.
    rewrite <- (append_empty_r dir), He, append_empty_r, Hs; cbn.
    rewrite str_app_assoc; reflexivity. }
  rewrite J1; unfold path_join; cbn.
  rewrite ends_with_slash_luacats, str_app_assoc, He; cbn.
  rewrite str_app_assoc; cbn; rewrite str_app_assoc; reflexivity.
Qed.








Lemma luacats_cached (h : Host) st tr p :
  cached_luacats_path st = Some p ->
  playdate_luacats_path h st tr = (Ok p, st, tr).
Proof. intro Hc; unfold playdate_luacats_path; unfold_ext; cbn; rewrite Hc; reflexivity. Qed.

Lemma luacats_writes_cache (h : Host) st tr p st' tr' :
  playdate_luacats_path h st tr = (Ok p, st', tr') ->
  cached_luacats_path st' = Some p.
Proof.
  intro H; unfold playdate_luacats_path in H; unfold_ext_in H; cbn in H.
  destruct (cached_luacats_path st) as [q|] eqn:Hc; cbn in H.
  - injection H as -> -> _; exact Hc.
  - split_results H; injection H as <- <- _; reflexivity.
Qed.



(** The type-definition resolver with nothing cached and "pdc" on the PATH:
    it runs "pdc --version", then downloads the tarball of the tag
    "v<version>-luacats1" into the extension directory. On success it
    returns and caches "<dir>/playdate-luacats-<version>-luacats1/library";
    on a failed download it returns an error naming the tag and caches
    nothing. *)
Theorem luacats_path_outcome (h : Host) st tr (pdc out dir : string) :
  cached_luacats_path st = None ->
  which h "pdc" = Some pdc ->
  command_output_of h pdc ["--version"] = Ok out ->
  current_dir h = Ok dir ->
  dir <> "" -> ends_with_slash dir = false ->
  let v := trim out in
  let tag := "v" ++ v ++ "-luacats1" in
  let url := "https://github.com/notpeter/playdate-luacats/archive/refs/tags/"
             ++ tag ++ ".tar.gz" in
  let events := (tr ++ [EvRunCommand pdc ["--version"];
                        EvDownloadFile url "." GzipTar])%list in
  playdate_luacats_path h st tr
  = match download_file_of h url "." GzipTar with
    | Ok _ =>
        let lib := dir ++ "/playdate-luacats-" ++ v ++ "-luacats1/library" in
        (Ok lib, {| cached_binary_path := cached_binary_path st;
                    cached_luacats_path := Some lib |}, events)
    | Err e => (Err ("failed to download playdate-luacats tag " ++ tag ++ ": " ++ e),
                st, events)
    end.
Proof.
  intros Hc Hw Ho Hd Hne Hs; cbn zeta.
  unfold playdate_luacats_path; unfold_ext; cbn -[path_join].
  rewrite Hc, Hw; cbn -[path_join]; rewrite Ho; cbn -[path_join].
  destruct (download_file_of h _ "." GzipTar); cbn -[path_join]; rewrite <- app_assoc;
    [|reflexivity].
  pose proof (luacats_library_path dir (trim out) Hne Hs) as L; cbn -[path_join] in L.
  rewrite Hd; cbn -[path_join]; rewrite L; reflexivity.
Qed.

Lemma luacats_path_outcome_witness :
  playdate_luacats_path (mk_host [] "/p" (Linux, X8664) [("pdc", "/sdk/bin/pdc")] (Err "x"))
    new_extension []
  = (Ok "/work/playdate-luacats-2.6.2-luacats1/library",
     {| cached_binary_path := None;
        cached_luacats_path := Some "/work/playdate-luacats-2.6.2-luacats1/library" |},
     [EvRunCommand "/sdk/bin/pdc" ["--version"];
      EvDownloadFile
        "https://github.com/notpeter/playdate-luacats/archive/refs/tags/v2.6.2-luacats1.tar.gz"
        "." GzipTar]).
Proof.
  exact (luacats_path_outcome
           (mk_host [] "/p" (Linux, X8664) [("pdc", "/sdk/bin/pdc")] (Err "x"))
           new_extension [] "/sdk/bin/pdc" ("2.6.2" ++ String "010" EmptyString) "/work"
           eq_refl eq_refl eq_refl eq_refl ltac:(discriminate) eq_refl).
Defined.

(** The type-definition resolver does no work when it has a cached path
    (it returns it, even if "pdc" is gone), and when nothing is cached and
    "pdc" is not on the PATH it fails without running or downloading
    anything. *)
Theorem luacats_path_no_work (h : Host) st tr :
  (forall p, cached_luacats_path st = Some p ->
   playdate_luacats_path h st tr = (Ok p, st, tr)) /\
  (cached_luacats_path st = None -> which h "pdc" = None ->
   playdate_luacats_path h st tr = (Err "pdc command not found in PATH", st, tr)).
Proof.
  split.
  - intros p; apply luacats_cached.
  - intros Hc Hw; unfold playdate_luacats_path; unfold_ext; cbn; rewrite Hc, Hw; reflexivity.
Qed.

Lemma luacats_path_no_work_witness :
  playdate_luacats_path (mk_host [] "/p" (Linux, X8664) [] (Err "x"))
    {| cached_binary_path := None; cached_luacats_path := Some "/lib" |} []
  = (Ok "/lib", {| cached_binary_path := None; cached_luacats_path := Some "/lib" |}, []) /\
  playdate_luacats_path (mk_host [] "/p" (Linux, X8664) [] (Err "x")) new_extension []
  = (Err "pdc command not found in PATH", new_extension, []).
Proof.
  split.
  - apply (proj1 (luacats_path_no_work (mk_host [] "/p" (Linux, X8664) [] (Err "x"))
                    {| cached_binary_path := None; cached_luacats_path := Some "/lib" |} []));
      reflexivity.
  - apply (proj2 (luacats_path_no_work (mk_host [] "/p" (Linux, X8664) [] (Err "x"))
                    new_extension [])); reflexivity.
Defined.

(** Once the type definitions are resolved, every later resolution on the
    same extension object, whatever the host, returns the same path without
    running or downloading anything and leaves the object unchanged. *)
Theorem luacats_path_resolved_once (h : Host) st tr p st' tr' :
  playdate_luacats_path h st tr = (Ok p, st', tr') ->
  forall (h' : Host) tr2, playdate_luacats_path h' st' tr2 = (Ok p, st', tr2).
Proof.
  intros H h' tr2.
  apply luacats_cached.
  exact (luacats_writes_cache h st tr p st' tr' H).
Qed.

Lemma luacats_path_resolved_once_witness :
  playdate_luacats_path (mk_host [] "/p" (Linux, X8664) [] (Err "x"))
    {| cached_binary_path := None;
       cached_luacats_path := Some "/work/playdate-luacats-2.6.2-luacats1/library" |} []
  = (Ok "/work/playdate-luacats-2.6.2-luacats1/library",
     {| cached_binary_path := None;
        cached_luacats_path := Some "/work/playdate-luacats-2.6.2-luacats1/library" |}, []).
Proof.
  exact (luacats_path_resolved_once
           (mk_host [] "/p" (Linux, X8664) [("pdc", "/sdk/bin/pdc")] (Err "x"))
           new_extension [] _ _ _ eq_refl
           (mk_host [] "/p" (Linux, X8664) [] (Err "x")) []).
Defined.

(** ** Language-server id gating *)

(** Every language-server entry point checks the id first. For an id other
    than [LSP_SERVER_ID], the command fails naming the id, the initialization
    options and the workspace configuration are [None], and none of them
    touches the host or the extension object. For the right id, the command
    is the resolved binary with no arguments and no environment, with the
    resolver's state and trace. *)
Theorem language_server_id_gating (h : Host) (lsid : string) st tr :
  (String.eqb lsid LSP_SERVER_ID = false ->
   language_server_command h lsid st tr
     = (Err ("Unsupported language server ID: " ++ lsid), st, tr) /\
   language_server_initialization_options lsid = Ok None /\
   language_server_workspace_configuration h lsid st tr = (Ok None, st, tr)) /\
  (forall p st' tr',
   language_server_binary_path h LSP_SERVER_ID st tr = (Ok p, st', tr') ->
   language_server_command h LSP_SERVER_ID st tr
     = (Ok {| ZedCommand.command := p; ZedCommand.args := []; ZedCommand.env := [] |},
        st', tr')) /\
  (forall e st' tr',
   language_server_binary_path h LSP_SERVER_ID st tr = (Err e, st', tr') ->
   language_server_command h LSP_SERVER_ID st tr = (Err e, st', tr')).
Proof.
  split; [|split].
  - intro E; unfold language_server_command, language_server_initialization_options,
      language_server_workspace_configuration; rewrite E; repeat split.
  - intros p st' tr' H; unfold language_server_command; cbn -[language_server_binary_path].
    unfold bind; rewrite H; reflexivity.
  - intros e st' tr' H; unfold language_server_command; cbn -[language_server_binary_path].
    unfold bind; rewrite H; reflexivity.
Qed.

Lemma language_server_id_gating_witness :
  language_server_command (mk_host [] "/p" (Linux, X8664) [] (Err "x")) "lua-ls"
    new_extension []
  = (Err ("Unsupported language server ID: " ++ "lua-ls"), new_extension, []) /\
  language_server_command
    (mk_host [] "/p" (Linux, X8664) [("lua-language-server", "/usr/bin/lls")] (Err "x"))
    LSP_SERVER_ID new_extension []
  = (Ok {| ZedCommand.command := "/usr/bin/lls"; ZedCommand.args := [];
           ZedCommand.env := [] |}, new_extension, []) /\
  language_server_command (mk_host [] "/p" (Linux, X8664) [] (Err "offline"))
    LSP_SERVER_ID new_extension []
  = (Err "offline", new_extension,
     [EvSetInstallationStatus LSP_SERVER_ID CheckingForUpdate;
      EvLatestGithubRelease "LuaLS/lua-language-server" lua_release_options]).
Proof.
  split; [|split].
  - exact (proj1 (proj1 (language_server_id_gating
                           (mk_host [] "/p" (Linux, X8664) [] (Err "x")) "lua-ls"
                           new_extension []) eq_refl)).
  - exact (proj1 (proj2 (language_server_id_gating
             (mk_host [] "/p" (Linux, X8664) [("lua-language-server", "/usr/bin/lls")] (Err "x"))
             LSP_SERVER_ID new_extension [])) "/usr/bin/lls" new_extension [] eq_refl).
  - exact (proj2 (proj2 (language_server_id_gating
             (mk_host [] "/p" (Linux, X8664) [] (Err "offline"))
             LSP_SERVER_ID new_extension [])) "offline" new_extension _ eq_refl).
Defined.

(** ** Completion and symbol labels *)

Lemma str_length_app (a b : string) :
  String.length (a ++ b) = String.length a + String.length b.
Proof. induction a as [|c a IH]; cbn; lia. Qed.

Lemma str_take_app (a b : string) : str_take (String.length a) (a ++ b) = a.
Proof. induction a as [|c a IH]; cbn; [reflexivity | now rewrite IH]. Qed.

Lemma str_take_length (a : string) : str_take (String.length a) a = a.
Proof. rewrite <- (append_empty_r a) at 2; apply str_take_app. Qed.

(** In a symbol label the highlighted span selects exactly the symbol's
    name inside the code "let a = <name>" (followed by "()" for a method),
    and the filter range covers the whole name. *)
Theorem symbol_label_span (sym : Symbol) :
  exists l r, label_for_symbol sym = Some l /\ spans l = [CodeRange r] /\
    starts_with "let a = " (code l) = true /\
    str_slice r (code l) = symbol_name sym /\
    str_slice (filter_range l) (symbol_name sym) = symbol_name sym.
Proof.
  unfold label_for_symbol.
  set (suffix := match symbol_kind sym with SymbolKind.Method => "()" | _ => "" end).
  set (name := symbol_name sym).
  do 2 eexists; split; [reflexivity|]; split; [reflexivity|].
  cbn [code spans filter_range].
  split; [|split].
  - apply starts_with_self_app.
  - unfold str_slice; cbn [range_start range_end].
    rewrite str_length_app, str_length_app.
    replace (String.length "let a = " + (String.length name + String.length suffix)
             - String.length suffix - String.length "let a = ")
      with (String.length name) by lia.
    rewrite str_drop_app, str_take_app; reflexivity.
  - unfold str_slice; cbn [range_start range_end str_drop].
    rewrite Nat.sub_0_r; apply str_take_length.
Qed.

Lemma contains_cons (p : string) (c : ascii) (s : string) :
  contains p (String c s) = starts_with p (String c s) || contains p s.
Proof. reflexivity. Qed.

Lemma starts_with_char (a b : ascii) (s : string) :
  starts_with (String a EmptyString) (String b s) = Ascii.eqb a b.
Proof. cbn; apply andb_true_r. Qed.

Lemma find_paren_split (s : string) :
  let n := match str_find_char "(" s with Some n => n | None => String.length s end in
  exists rest, s = str_take n s ++ rest /\ contains "(" (str_take n s) = false /\
    (rest = "" \/ starts_with "(" rest = true).
Proof.
  induction s as [|d s IH]; cbn zeta in *.
  - exists ""; cbn; auto.
  - cbn [str_find_char].
    destruct (Ascii.eqb "(" d) eqn:E.
    + apply Ascii.eqb_eq in E; subst d.
      exists (String "(" s); cbn; auto.
    + destruct IH as (rest & Hs & Hc & Hr).
      exists rest.
      destruct (str_find_char "(" s) as [n|]; cbn [option_map String.length str_take].
      all: split; [cbn; now rewrite <- Hs|]; split; [|exact Hr].
      all: rewrite contains_cons, starts_with_char, E; exact Hc.
Qed.

(** A function or method completion label is highlighted as code over its
    whole text, and its filter range is the name before the first '(': the
    label is the filtered text followed by nothing or by a part that starts
    with '(', and the filtered text contains no '('. *)
Theorem completion_function_label (c : Completion) (k : CompletionKind.t) :
  completion_kind c = Some k ->
  k = CompletionKind.Method \/ k = CompletionKind.Function ->
  exists l rest, label_for_completion c = Some l /\
    code l = completion_label c /\
    spans l = [CodeRange {| range_start := 0;
                            range_end := String.length (completion_label c) |}] /\
    range_start (filter_range l) = 0 /\
    completion_label c = str_slice (filter_range l) (completion_label c) ++ rest /\
    contains "(" (str_slice (filter_range l) (completion_label c)) = false /\
    (rest = "" \/ starts_with "(" rest = true).
Proof.
  intros Hk Hm.
  destruct (find_paren_split (completion_label c)) as (rest & Hs & Hc & Hr).
  unfold label_for_completion; rewrite Hk.
  assert (Hf : forall x, str_slice {| range_start := 0; range_end := x |} (completion_label c)
                         = str_take x (completion_label c))
    by (intro x; unfold str_slice; cbn; now rewrite Nat.sub_0_r).
  destruct Hm as [->| ->]; do 2 eexists; (split; [reflexivity|]); cbn -[str_slice];
    rewrite Hf; repeat split; eauto.
Qed.

Lemma completion_function_label_witness :
  exists l rest,
    label_for_completion {| completion_label := "sprite.new(x, y)";
                            completion_kind := Some CompletionKind.Function |} = Some l /\
    code l = "sprite.new(x, y)" /\
    spans l = [CodeRange {| range_start := 0; range_end := 16 |}] /\
    range_start (filter_range l) = 0 /\
    "sprite.new(x, y)" = str_slice (filter_range l) "sprite.new(x, y)" ++ rest /\
    contains "(" (str_slice (filter_range l) "sprite.new(x, y)") = false /\
    (rest = "" \/ starts_with "(" rest = true).
Proof.
  exact (completion_function_label
           {| completion_label := "sprite.new(x, y)";
              completion_kind := Some CompletionKind.Function |}
           CompletionKind.Function eq_refl (or_intror eq_refl)).
Defined.

(** Only method, function and field completions get a label; a field label
    has no code and shows the label text itself, highlighted as a property,
    with the filter range over the whole label. *)
Theorem completion_label_kinds (c : Completion) :
  (label_for_completion c = None <->
   match completion_kind c with
   | Some CompletionKind.Method | Some CompletionKind.Function
   | Some CompletionKind.Field => False
   | _ => True
   end) /\
  (completion_kind c = Some CompletionKind.Field ->
   exists l, label_for_completion c = Some l /\ code l = "" /\
     spans l = [Literal (completion_label c) (Some "property")] /\
     str_slice (filter_range l) (completion_label c) = completion_label c).
Proof.
  split.
  - unfold label_for_completion.
    destruct (completion_kind c) as [k|]; [destruct k|]; split; intro H;
      solve [discriminate | contradiction | reflexivity | exact I].
  - intro Hk; unfold label_for_completion; rewrite Hk.
    eexists; split; [reflexivity|]; repeat split.
    unfold str_slice; cbn; rewrite Nat.sub_0_r; apply str_take_length.
Qed.

Lemma completion_label_kinds_witness :
  label_for_completion {| completion_label := "playdate";
                          completion_kind := Some CompletionKind.Keyword |} = None /\
  exists l, label_for_completion {| completion_label := "width";
                                    completion_kind := Some CompletionKind.Field |} = Some l /\
    code l = "" /\ spans l = [Literal "width" (Some "property")] /\
    str_slice (filter_range l) "width" = "width".
Proof.
  split.
  - apply (proj2 (proj1 (completion_label_kinds
                           {| completion_label := "playdate";
                              completion_kind := Some CompletionKind.Keyword |}))); exact I.
  - exact (proj2 (completion_label_kinds
                    {| completion_label := "width";
                       completion_kind := Some CompletionKind.Field |}) eq_refl).
Defined.
